(** * Stoic-Mentor: the generative client of [Server/services/aiService.js]

    A shallow embedding of [fetchWithTimeout] and [generateAIResponse]
    (both variants found in the repository) together with the parts of the
    JavaScript run time they rely on: UTF-16 strings, [String.prototype.trim],
    the regular expression [/<\|.*?\|>/g], values produced by [JSON.parse],
    property access with optional chaining, [JSON.stringify],
    [try]/[catch]/[finally], timers, [AbortController] and [fetch]. *)

From Stdlib Require Import Ascii String DecimalString PrimFloat.
From Stdlib Require Import Arith NArith Bool List Lia.
From Stdlib Require Zify PreOmega.
From Equations Require Import Equations.
Import ListNotations.

Set Implicit Arguments.
Set Warnings "-register-all,-inexact-float".
Local Open Scope N_scope.

(** ** JavaScript strings *)

Module JSString.

(** A JavaScript string is a sequence of UTF-16 code units. *)
Definition char16 := N.
Definition jsstring := list char16.

(** ASCII literals: every byte below 128 is its own code unit. *)
Definition lit (s : string) : jsstring :=
  map N_of_ascii (list_ascii_of_string s).

(** ECMAScript [LineTerminator]: LF, CR, LS, PS. *)
Definition isLineTerminator (c : char16) : bool :=
  (c =? 10) || (c =? 13) || (c =? 8232) || (c =? 8233).

(** ECMAScript [WhiteSpace]: TAB, VT, FF, SP, NBSP, ZWNBSP and the
    code points of category Zs. *)
Definition isWhiteSpace (c : char16) : bool :=
  (c =? 9) || (c =? 11) || (c =? 12) || (c =? 32) || (c =? 160)
  || (c =? 65279) || (c =? 5760)
  || ((8192 <=? c) && (c <=? 8202))
  || (c =? 8239) || (c =? 8287) || (c =? 12288).

(** What [trim] removes at both ends. *)
Definition isTrimmable (c : char16) : bool :=
  isWhiteSpace c || isLineTerminator c.

Fixpoint trimStart (s : jsstring) : jsstring :=
  match s with
  | c :: r => if isTrimmable c then trimStart r else s
  | [] => []
  end.

Definition trimEnd (s : jsstring) : jsstring :=
  rev (trimStart (rev s)).

(** [String.prototype.trim]. *)
Definition trim (s : jsstring) : jsstring := trimEnd (trimStart s).

Definition LESS : char16 := 60.      (* < *)
Definition PIPE : char16 := 124.     (* | *)
Definition GREATER : char16 := 62.   (* > *)

(** The tail [.*?\|>] of the pattern, tried at [s]: the lazy quantifier
    takes the closing delimiter as soon as it is there and otherwise
    consumes one more code unit, which [.] (no [s] flag) refuses when it
    is a line terminator.  The result is what follows the match. *)
Fixpoint closeToken (s : jsstring) : option jsstring :=
  match s with
  | c :: r =>
      match r with
      | d :: r' =>
          if (c =? PIPE) && (d =? GREATER) then Some r'
          else if isLineTerminator c then None
          else closeToken r
      | [] => None
      end
  | [] => None
  end.

(** The whole pattern [<\|.*?\|>] tried at the start of [s]. *)
Definition matchToken (s : jsstring) : option jsstring :=
  match s with
  | c :: d :: r => if (c =? LESS) && (d =? PIPE) then closeToken r else None
  | _ => None
  end.

Lemma closeToken_shorter s r :
  closeToken s = Some r -> (length r < length s)%nat.
Proof.
  revert r. induction s as [|c s IH]; intros r; simpl; [discriminate|].
  destruct s as [|d s']; [discriminate|].
  destruct ((c =? PIPE) && (d =? GREATER)).
  - intros [= <-]. simpl. lia.
  - destruct (isLineTerminator c); [discriminate|].
    intros H. apply IH in H. simpl in *. lia.
Qed.

Lemma matchToken_shorter s r :
  matchToken s = Some r -> (length r < length s)%nat.
Proof.
  destruct s as [|c [|d s']]; simpl; try discriminate.
  destruct ((c =? LESS) && (d =? PIPE)); [|discriminate].
  intros H. apply closeToken_shorter in H. lia.
Qed.

(** Matching on a value while remembering what it is equal to. *)
Definition inspect {A : Type} (a : A) : {b : A | a = b} :=
  exist _ a eq_refl.

(** [s.replace(/<\|.*?\|>/g, '')]: scan from the left; where the pattern
    matches, drop the match and go on after it; elsewhere keep the code
    unit and go on at the next one. *)
Equations? stripControlTokens (s : jsstring) : jsstring by wf (length s) lt :=
  stripControlTokens [] := [];
  stripControlTokens (c :: r) with inspect (matchToken (c :: r)) => {
    | exist _ (Some rest) _ := stripControlTokens rest;
    | exist _ None _ := c :: stripControlTokens r }.
Proof.
  exact (matchToken_shorter (c :: r) e).
Qed.

End JSString.

Import JSString.

(** ** JavaScript values and completions *)

Module JS.

(** The values [JSON.parse] builds, and [undefined], which property
    access adds.  An object is its table of own properties. *)
Inductive Value : Type :=
| VUndefined
| VNull
| VBool (b : bool)
| VNumber (x : float)
| VString (s : jsstring)
| VArray (elements : list Value)
| VObject (props : list (jsstring * Value)).

Inductive Error : Type :=
| TypeError      (* property of null/undefined, call of a non-function *)
| SyntaxError    (* the body is not JSON *)
| AbortError     (* the signal aborted the request *)
| NetworkError.  (* fetch failed *)

(** How the evaluation of an expression or an [await] ends; [Pending]
    is an [await] on a promise that never settles. *)
Inductive Completion (A : Type) : Type :=
| Normal (a : A)
| Throw (e : Error)
| Pending.
Arguments Throw {A} e.
Arguments Pending {A}.

Definition bindC {A B} (c : Completion A) (k : A -> Completion B)
  : Completion B :=
  match c with
  | Normal a => k a
  | Throw e => Throw e
  | Pending => Pending
  end.

Fixpoint jseqb (a b : jsstring) : bool :=
  match a, b with
  | [], [] => true
  | x :: a', y :: b' => (x =? y) && jseqb a' b'
  | _, _ => false
  end.

(** Own property [k] of a property table. *)
Fixpoint own (props : list (jsstring * Value)) (k : jsstring)
  : option Value :=
  match props with
  | [] => None
  | (k', v) :: rest => if jseqb k' k then Some v else own rest k
  end.

Definition orUndefined (o : option Value) : Value :=
  match o with Some v => v | None => VUndefined end.

(** [ToBoolean]. *)
Definition truthy (v : Value) : bool :=
  match v with
  | VUndefined | VNull => false
  | VBool b => b
  | VNumber x => negb (PrimFloat.eqb x 0 || negb (PrimFloat.eqb x x))
  | VString s => match s with [] => false | _ => true end
  | VArray _ | VObject _ => true
  end.

(** [v.name], for the names the service reads ([choices], [message],
    [content]): none of them is a property of a built-in prototype, of an
    array or of a string, so only the own properties of an object
    answer; on [null] and [undefined] the access throws. *)
Definition getProp (v : Value) (name : jsstring) : Completion Value :=
  match v with
  | VUndefined | VNull => Throw TypeError
  | VObject props => Normal (orUndefined (own props name))
  | _ => Normal VUndefined
  end.

(** The property key of the index [i], [ToString(i)]. *)
Definition indexKey (i : nat) : jsstring :=
  lit (NilEmpty.string_of_uint (Nat.to_uint i)).

(** [v[i]] for a number [i]: an element of an array, a code unit of a
    string, the own property [ToString(i)] of an object. *)
Definition getIndex (v : Value) (i : nat) : Completion Value :=
  match v with
  | VUndefined | VNull => Throw TypeError
  | VArray xs => Normal (orUndefined (nth_error xs i))
  | VString s =>
      Normal (match nth_error s i with
              | Some c => VString [c]
              | None => VUndefined
              end)
  | VObject props => Normal (orUndefined (own props (indexKey i)))
  | _ => Normal VUndefined
  end.

(** One link [v?.x] of an optional chain. *)
Definition optional (v : Value) (access : Value -> Completion Value)
  : Completion Value :=
  match v with
  | VUndefined | VNull => Normal VUndefined
  | _ => access v
  end.

(** An entry of [process.env]: a string, or [undefined]. *)
Definition envValue (e : option jsstring) : Value :=
  match e with Some s => VString s | None => VUndefined end.

(** An entry of [process.env] inside a template literal. *)
Definition envToString (e : option jsstring) : jsstring :=
  match e with Some s => s | None => lit "undefined" end.

(** [v.replace(/<\|.*?\|>/g, '')]: only a string has the method. *)
Definition replaceControlTokens (v : Value) : Completion jsstring :=
  match v with
  | VString s => Normal (stripControlTokens s)
  | _ => Throw TypeError
  end.

End JS.

Import JS.

(** ** [JSON.stringify] *)

Module Stringify.
Section Text.

(** [Number::toString] of the run time, used on finite numbers only. *)
Variable numberToString : float -> jsstring.

Definition hexDigit (d : N) : char16 := if d <? 10 then 48 + d else 87 + d.

(** [UnicodeEscape]: a backslash, [u] and four hexadecimal digits in lower
    case. *)
Definition unicodeEscape (c : char16) : jsstring :=
  [92; 117; hexDigit (c / 4096 mod 16); hexDigit (c / 256 mod 16);
   hexDigit (c / 16 mod 16); hexDigit (c mod 16)].

Definition isLeadingSurrogate (c : char16) : bool :=
  (55296 <=? c) && (c <=? 56319).

Definition isTrailingSurrogate (c : char16) : bool :=
  (56320 <=? c) && (c <=? 57343).

(** How [QuoteJSONString] writes a code unit that is not half of a
    surrogate pair: the short escapes for backspace, tab, line feed, form
    feed, carriage return, the quote and the backslash; [UnicodeEscape]
    for the other control characters and for a surrogate on its own; the
    code unit itself otherwise. *)
Definition quoteUnit (c : char16) : jsstring :=
  if c =? 8 then [92; 98]
  else if c =? 9 then [92; 116]
  else if c =? 10 then [92; 110]
  else if c =? 12 then [92; 102]
  else if c =? 13 then [92; 114]
  else if c =? 34 then [92; 34]
  else if c =? 92 then [92; 92]
  else if (c <? 32) || isLeadingSurrogate c || isTrailingSurrogate c
       then unicodeEscape c
  else [c].

(** The code points of the string in turn: a leading surrogate followed by
    a trailing one is one code point and is written as it is. *)
Fixpoint quoteUnits (s : jsstring) : jsstring :=
  match s with
  | [] => []
  | c :: r =>
      match r with
      | d :: r' =>
          if isLeadingSurrogate c && isTrailingSurrogate d
          then c :: d :: quoteUnits r'
          else quoteUnit c ++ quoteUnits r
      | [] => quoteUnit c
      end
  end.

(** [QuoteJSONString]. *)
Definition quoteJSONString (s : jsstring) : jsstring :=
  34 :: quoteUnits s ++ [34].

Fixpoint joinComma (ts : list jsstring) : jsstring :=
  match ts with
  | [] => []
  | [t] => t
  | t :: rest => t ++ 44 :: joinComma rest
  end.

(** [JSON.stringify(v)] with one argument, so without indentation; [None]
    is [undefined]. A number that is not finite is written [null], an
    [undefined] element of an array is written [null] and a property whose
    value is [undefined] is left out. The properties of an object are
    written in the order of its table: that is the order of the run time
    for keys that are distinct and none of them an array index, as in the
    object literals of the service. *)
Fixpoint stringify (v : Value) : option jsstring :=
  match v with
  | VUndefined => None
  | VNull => Some (lit "null")
  | VBool b => Some (if b then lit "true" else lit "false")
  | VNumber x =>
      Some (if PrimFloat.is_finite x then numberToString x else lit "null")
  | VString s => Some (quoteJSONString s)
  | VArray xs =>
      Some (91 :: joinComma
                    (map (fun x => match stringify x with
                                   | Some t => t
                                   | None => lit "null"
                                   end) xs)
               ++ [93])
  | VObject props =>
      Some (123 :: joinComma
                     (flat_map
                        (fun kv =>
                           match stringify (snd kv) with
                           | Some t => [quoteJSONString (fst kv) ++ 58 :: t]
                           | None => []
                           end) props)
                ++ [125])
  end.

End Text.

(** Reading a JSON string back, as [JSON.parse] does after the opening
    quote: the code units up to the closing quote, and what follows it. *)
Definition unhexDigit (h : char16) : option N :=
  if (48 <=? h) && (h <=? 57) then Some (h - 48)
  else if (97 <=? h) && (h <=? 102) then Some (h - 87)
  else if (65 <=? h) && (h <=? 70) then Some (h - 55)
  else None.

Definition unescape (e : char16) : option char16 :=
  if e =? 98 then Some 8
  else if e =? 116 then Some 9
  else if e =? 110 then Some 10
  else if e =? 102 then Some 12
  else if e =? 114 then Some 13
  else if e =? 34 then Some 34
  else if e =? 92 then Some 92
  else if e =? 47 then Some 47
  else None.

Definition consUnit (c : char16) (p : option (jsstring * jsstring))
  : option (jsstring * jsstring) :=
  match p with
  | Some (s, rest) => Some (c :: s, rest)
  | None => None
  end.

Fixpoint readUnits (t : jsstring) : option (jsstring * jsstring) :=
  match t with
  | [] => None
  | c :: r =>
      if c =? 34 then Some ([], r)
      else if c =? 92 then
        match r with
        | [] => None
        | e :: r1 =>
            if e =? 117 then
              match r1 with
              | h1 :: h2 :: h3 :: h4 :: r2 =>
                  match unhexDigit h1, unhexDigit h2,
                        unhexDigit h3, unhexDigit h4 with
                  | Some d1, Some d2, Some d3, Some d4 =>
                      consUnit (((d1 * 16 + d2) * 16 + d3) * 16 + d4)
                               (readUnits r2)
                  | _, _, _, _ => None
                  end
              | _ => None
              end
            else
              match unescape e with
              | Some c' => consUnit c' (readUnits r1)
              | None => None
              end
        end
      else consUnit c (readUnits r)
  end.

End Stringify.

Import Stringify.

(** ** The run time: clock, timers, abort controllers, fetch *)

Module Runtime.

Definition ControllerId := nat.
Definition TimerId := nat.

Inductive TimerStatus : Type := Armed | Fired | Cleared.

(** A timer set with the callback [() => controller.abort()]. *)
Record Timer : Type := mkTimer {
  deadline : N;
  target : ControllerId;
  status : TimerStatus
}.

(** The text [JSON.stringify(v)], kept as the value it serialises;
    [Stringify.stringify] gives the text itself. *)
Inductive JSONText : Type := JSON_stringify (v : Value).

(** The second argument of [fetch]. *)
Record RequestInit : Type := mkInit {
  method : jsstring;
  headers : list (jsstring * jsstring);
  body : JSONText;
  signal : option ControllerId
}.

(** What the backend does with the body of its response; latencies are
    counted in milliseconds from the arrival of the headers. *)
Inductive Body : Type :=
| BodyJSON (latency : N) (data : Value)
| BodyInvalid (latency : N)
| BodyStalled.   (* never ends: no end of the text comes and the run
                    time does not give the body up *)

(** What the backend does with a request; latencies are counted from
    the moment the request is issued. *)
Inductive Upstream : Type :=
| Unreachable (latency : N)   (* the connection fails *)
| Silent                      (* no answer ever comes *)
| Responds (latency : N) (payload : Body).

Record Response : Type := mkResponse {
  arrived : N;
  payload_of : Body;
  signal_of : option ControllerId
}.

Record World : Type := mkWorld {
  clock : N;
  timers : list Timer;            (* by [TimerId] *)
  aborted : list bool;            (* by [ControllerId] *)
  requests : list (jsstring * RequestInit);   (* the calls of [fetch] *)
  console : list jsstring;        (* what [console.error] printed *)
  network : Upstream
}.

Definition Eff (A : Type) : Type := World -> Completion A * World.

Definition ret {A} (a : A) : Eff A := fun w => (Normal a, w).

Definition bind {A B} (m : Eff A) (k : A -> Eff B) : Eff B :=
  fun w =>
    match m w with
    | (Normal a, w') => k a w'
    | (Throw e, w') => (Throw e, w')
    | (Pending, w') => (Pending, w')
    end.

Definition liftC {A} (c : Completion A) : Eff A := fun w => (c, w).

(** [try { body } catch (error) { handler }]. *)
Definition tryCatch {A} (body : Eff A) (handler : Error -> Eff A) : Eff A :=
  fun w =>
    match body w with
    | (Throw e, w') => handler e w'
    | r => r
    end.

(** [try { body } finally { cleanup }]: the cleanup runs when the body
    returns and when it throws, and the completion of the body stands
    unless the cleanup itself does not complete normally. *)
Definition tryFinally {A} (body : Eff A) (cleanup : Eff unit) : Eff A :=
  fun w =>
    match body w with
    | (Pending, w') => (Pending, w')
    | (r, w') =>
        match cleanup w' with
        | (Normal _, w'') => (r, w'')
        | (Throw e, w'') => (Throw e, w'')
        | (Pending, w'') => (Pending, w'')
        end
    end.

Definition isArmed (t : Timer) : bool :=
  match status t with Armed => true | _ => false end.

Definition isDue (now : N) (t : Timer) : bool :=
  isArmed t && (deadline t <=? now).

Definition fire (now : N) (t : Timer) : Timer :=
  if isDue now t then mkTimer (deadline t) (target t) Fired else t.

Fixpoint abortTargets (due : list Timer) (from : ControllerId)
                      (flags : list bool) : list bool :=
  match flags with
  | [] => []
  | b :: rest =>
      (b || existsb (fun t => Nat.eqb (target t) from) due)
        :: abortTargets due (S from) rest
  end.

(** Time passes until [t]: the timers due by then run their callback. *)
Definition advance (t : N) (w : World) : World :=
  let now := N.max (clock w) t in
  mkWorld now
          (map (fire now) (timers w))
          (abortTargets (filter (isDue now) (timers w)) 0%nat (aborted w))
          (requests w) (console w) (network w).

Fixpoint earliest (ts : list N) : option N :=
  match ts with
  | [] => None
  | t :: rest =>
      match earliest rest with
      | Some t' => Some (N.min t t')
      | None => Some t
      end
  end.

(** When the signal of controller [c] aborts, if nothing else is done:
    at once when it has aborted already, else when the first armed timer
    aimed at it runs. *)
Definition abortTime (w : World) (c : ControllerId) : option N :=
  if nth c (aborted w) false then Some (clock w)
  else earliest
         (map (fun t => N.max (clock w) (deadline t))
              (filter (fun t => isArmed t && Nat.eqb (target t) c)
                      (timers w))).

(** [await] of an operation that goes with [signal] and would settle
    as [settles] says (at an absolute time), were it not aborted: it
    settles so when that comes strictly before the abort; it rejects
    with [AbortError] when the abort comes first; it stays pending when
    neither ever happens. *)
Definition await {A} (signal : option ControllerId)
                 (settles : option (N * Completion A)) : Eff A :=
  fun w =>
    let abortAt :=
      match signal with Some c => abortTime w c | None => None end in
    match settles, abortAt with
    | Some (t, r), None => (r, advance t w)
    | Some (t, r), Some d =>
        if t <? d then (r, advance t w) else (Throw AbortError, advance d w)
    | None, Some d => (Throw AbortError, advance d w)
    | None, None => (Pending, w)
    end.

(** [new AbortController()]. *)
Definition newAbortController : Eff ControllerId :=
  fun w =>
    (Normal (length (aborted w)),
     mkWorld (clock w) (timers w) (aborted w ++ [false])
             (requests w) (console w) (network w)).

(** [setTimeout(() => controller.abort(), ms)], for a delay that the run
    time takes as it is given (1 ms to 2147483647 ms, as the 40000 ms of
    the service); any other delay the run time replaces by 1 ms. *)
Definition setTimeoutAbort (controller : ControllerId) (ms : N)
  : Eff TimerId :=
  fun w =>
    (Normal (length (timers w)),
     mkWorld (clock w)
             (timers w ++ [mkTimer (clock w + ms) controller Armed])
             (aborted w) (requests w) (console w) (network w)).

Fixpoint clearAt (id : TimerId) (ts : list Timer) : list Timer :=
  match ts, id with
  | [], _ => []
  | t :: rest, O =>
      (if isArmed t then mkTimer (deadline t) (target t) Cleared else t)
        :: rest
  | t :: rest, S id' => t :: clearAt id' rest
  end.

(** [clearTimeout(id)]: nothing happens to a timer that has run. *)
Definition clearTimeout (id : TimerId) : Eff unit :=
  fun w =>
    (Normal tt,
     mkWorld (clock w) (clearAt id (timers w)) (aborted w)
             (requests w) (console w) (network w)).

(** [{ ...options, signal: controller.signal }]. *)
Definition withSignal (options : RequestInit) (controller : ControllerId)
  : RequestInit :=
  mkInit (method options) (headers options) (body options)
         (Some controller).

(** [await fetch(url, init)]: the call is recorded with its arguments and
    the request goes out; the promise resolves when the headers of the
    response arrive. The header values of [init] are taken to be legal:
    a value with a line feed, a carriage return or a code unit above 255
    in it is refused by [fetch] before anything is sent. *)
Definition fetch (url : jsstring) (init : RequestInit) : Eff Response :=
  fun w =>
    let w1 := mkWorld (clock w) (timers w) (aborted w)
                      (requests w ++ [(url, init)]) (console w)
                      (network w) in
    await (signal init)
          (match network w with
           | Unreachable l => Some (clock w + l, Throw NetworkError)
           | Silent => None
           | Responds l b =>
               Some (clock w + l,
                     Normal (mkResponse (clock w + l) b (signal init)))
           end)
          w1.

(** [await res.json()]: reads the body to its end and parses it. *)
Definition json (res : Response) : Eff Value :=
  fun w =>
    await (signal_of res)
          (match payload_of res with
           | BodyJSON l data =>
               Some (N.max (clock w) (arrived res + l), Normal data)
           | BodyInvalid l =>
               Some (N.max (clock w) (arrived res + l), Throw SyntaxError)
           | BodyStalled => None
           end)
          w.

(** [console.error(message)]. *)
Definition consoleError (message : jsstring) : Eff unit :=
  fun w =>
    (Normal tt,
     mkWorld (clock w) (timers w) (aborted w) (requests w)
             (console w ++ [message]) (network w)).

(** A process that has just started, at time [now], facing [net]. *)
Definition startWorld (now : N) (net : Upstream) : World :=
  mkWorld now [] [] [] [] net.

End Runtime.

Import Runtime.

Declare Scope completion_scope.
Delimit Scope completion_scope with completion.
Notation "x <- c ;; k" := (bindC c (fun x => k))
  (at level 61, c at next level, right associativity) : completion_scope.

Declare Scope eff_scope.
Delimit Scope eff_scope with eff.
Notation "x <- m ;; k" := (bind m (fun x => k))
  (at level 61, m at next level, right associativity) : eff_scope.
Notation "m ;;; k" := (bind m (fun _ => k))
  (at level 61, right associativity) : eff_scope.

(** ** [src/Server/services/aiService.js] *)

Module AiService.
Section Service.

(** [process.env.HUGGINGFACE_API_KEY] as read when the module loads. *)
Variable HF_API_KEY : option jsstring.

(** The text of the template literal that is the content of the system
    message (lines 59 to 172); it has no [${...}] placeholder. *)
Variable SYSTEM_PROMPT : jsstring.

Definition HF_ROUTER_URL : jsstring :=
  lit "https://router.huggingface.co/v1/chat/completions".

Definition MODEL_ID : jsstring := lit "meta-llama/Llama-3.1-70B-Instruct".

(** [async function fetchWithTimeout(url, options, timeout = 40000)]: the
    wrapper for [fetch] with a timeout controller; [None] is the argument
    left out. *)
Definition fetchWithTimeout (url : jsstring) (options : RequestInit)
                            (timeout : option N) : Eff Response :=
  let timeout := match timeout with Some ms => ms | None => 40000 end in
  (controller <- newAbortController ;;
   id <- setTimeoutAbort controller timeout ;;
   tryFinally
     (res <- fetch url (withSignal options controller) ;;
      ret res)
     (clearTimeout id))%eff.

(** [export async function generateAIResponse(fullPrompt)]: sends the
    prompt to the router and returns the generated text, or [null] when
    that fails. *)
Definition generateAIResponse (fullPrompt : jsstring)
  : Eff (option jsstring) :=
  if negb (truthy (envValue HF_API_KEY)) then ret None
  else
    (tryCatch
      (aiRes <-
         fetchWithTimeout HF_ROUTER_URL
           (mkInit
              (lit "POST")
              [ (lit "Authorization",
                 lit "Bearer " ++ envToString HF_API_KEY);
                (lit "Content-Type", lit "application/json") ]
              (JSON_stringify
                 (VObject
                    [ (lit "model", VString MODEL_ID);
                      (lit "messages",
                       VArray
                         [ VObject
                             [ (lit "role", VString (lit "system"));
                               (lit "content", VString SYSTEM_PROMPT) ];
                           VObject
                             [ (lit "role", VString (lit "user"));
                               (lit "content", VString fullPrompt) ] ]);
                      (lit "max_tokens", VNumber 800);
                      (lit "temperature", VNumber 0.8);
                      (lit "top_p", VNumber 0.9) ]))
              None)
           None ;;
       data <- json aiRes ;;
       found <- liftC (choices <- getProp data (lit "choices") ;;
                       first <- optional choices (fun v => getIndex v 0) ;;
                       message <- optional first
                                    (fun v => getProp v (lit "message")) ;;
                       optional message
                         (fun v => getProp v (lit "content")))%completion ;;
       if truthy found then
         text <- liftC (choices <- getProp data (lit "choices") ;;
                        first <- getIndex choices 0 ;;
                        message <- getProp first (lit "message") ;;
                        content <- getProp message (lit "content") ;;
                        replaceControlTokens content)%completion ;;
         ret (Some (trim text))
       else ret None)
      (fun error =>
         consoleError (lit "AI Error, using fallback") ;;;
         ret None))%eff.

End Service.
End AiService.

(** ** [src/unnamed/part_001], another text of the same file *)

Module Part001.
Section Service.

(** [process.env.HUGGINGFACE_API_KEY] as read when the module loads. *)
Variable HF_API_KEY : option jsstring.

(** The text of the template literal that is the content of the system
    message (lines 59 to 143); it has no [${...}] placeholder. *)
Variable SYSTEM_PROMPT : jsstring.

Definition HF_ROUTER_URL : jsstring :=
  lit "https://router.huggingface.co/v1/chat/completions".

Definition MODEL_ID : jsstring := lit "meta-llama/Llama-3.1-70B-Instruct".

(** [async function fetchWithTimeout(url, options, timeout = 40000)]: the
    wrapper for [fetch] with a timeout controller; [None] is the argument
    left out. *)
Definition fetchWithTimeout (url : jsstring) (options : RequestInit)
                            (timeout : option N) : Eff Response :=
  let timeout := match timeout with Some ms => ms | None => 40000 end in
  (controller <- newAbortController ;;
   id <- setTimeoutAbort controller timeout ;;
   tryFinally
     (res <- fetch url (withSignal options controller) ;;
      ret res)
     (clearTimeout id))%eff.

(** [export async function generateAIResponse(fullPrompt)]: sends the
    prompt to the router and returns the generated text, or [null] when
    that fails. *)
Definition generateAIResponse (fullPrompt : jsstring)
  : Eff (option jsstring) :=
  if negb (truthy (envValue HF_API_KEY)) then ret None
  else
    (tryCatch
      (aiRes <-
         fetchWithTimeout HF_ROUTER_URL
           (mkInit
              (lit "POST")
              [ (lit "Authorization",
                 lit "Bearer " ++ envToString HF_API_KEY);
                (lit "Content-Type", lit "application/json") ]
              (JSON_stringify
                 (VObject
                    [ (lit "model", VString MODEL_ID);
                      (lit "messages",
                       VArray
                         [ VObject
                             [ (lit "role", VString (lit "system"));
                               (lit "content", VString SYSTEM_PROMPT) ];
                           VObject
                             [ (lit "role", VString (lit "user"));
                               (lit "content", VString fullPrompt) ] ]);
                      (lit "max_tokens", VNumber 800);
                      (lit "temperature", VNumber 0.8);
                      (lit "top_p", VNumber 0.9) ]))
              None)
           None ;;
       data <- json aiRes ;;
       found <- liftC (choices <- getProp data (lit "choices") ;;
                       first <- optional choices (fun v => getIndex v 0) ;;
                       message <- optional first
                                    (fun v => getProp v (lit "message")) ;;
                       optional message
                         (fun v => getProp v (lit "content")))%completion ;;
       if truthy found then
         text <- liftC (choices <- getProp data (lit "choices") ;;
                        first <- getIndex choices 0 ;;
                        message <- getProp first (lit "message") ;;
                        content <- getProp message (lit "content") ;;
                        replaceControlTokens content)%completion ;;
         ret (Some (trim text))
       else ret None)
      (fun error =>
         consoleError (lit "AI Error, using fallback") ;;;
         ret None))%eff.

End Service.
End Part001.

(** ** Vocabulary of the specification *)

Module Spec.

(** A field of a JSON structure: a named member of an object, an element
    of an array, or the member of an object with a number for a name. *)
Inductive Key : Type := Name (name : jsstring) | Index (i : nat).

Definition field (v : Value) (k : Key) : option Value :=
  match v, k with
  | VObject props, Name name => own props name
  | VObject props, Index i => own props (indexKey i)
  | VArray xs, Index i => nth_error xs i
  | _, _ => None
  end.

Fixpoint path (v : Value) (ks : list Key) : option Value :=
  match ks with
  | [] => Some v
  | k :: rest =>
      match field v k with
      | Some v' => path v' rest
      | None => None
      end
  end.

(** The expected fields of a chat completion payload: [choices], its
    first element, the [message] of that and the [content] of the
    message. *)
Definition expectedFields : list Key :=
  [Name (lit "choices"); Index 0; Name (lit "message");
   Name (lit "content")].

Definition expectedContent (data : Value) : option Value :=
  path data expectedFields.

(** The typed failures of the generative client. *)
Inductive Failure : Type := Timeout | UpstreamError | EmptyResponse.

(** The failure that a behaviour of the backend amounts to under a
    deadline, after section 4.4 of the specification: no completion by the
    deadline is [Timeout], a transport or application error is
    [UpstreamError], a payload without the generated text is
    [EmptyResponse]; [None] where the call is to succeed. *)
Definition failureOf (deadline : N) (u : Upstream) : option Failure :=
  match u with
  | Silent => Some Timeout
  | Unreachable l =>
      if l <? deadline then Some UpstreamError else Some Timeout
  | Responds l b =>
      if l <? deadline then
        match b with
        | BodyStalled => Some Timeout
        | BodyInvalid _ => Some UpstreamError
        | BodyJSON _ data =>
            match expectedContent data with
            | Some (VString (_ :: _)) => None
            | _ => Some EmptyResponse
            end
        end
      else Some Timeout
  end.

(** A substring of the form [<|...|>]. *)
Definition containsControlToken (s : jsstring) : Prop :=
  exists before name after,
    s = before ++ lit "<|" ++ name ++ lit "|>" ++ after.

Definition edgeClean (s : jsstring) : bool :=
  match s with
  | [] => true
  | c :: _ => negb (isTrimmable c)
  end.

(** No whitespace at the start and none at the end. *)
Definition trimmed (s : jsstring) : bool :=
  edgeClean s && edgeClean (rev s).

(** A text cut into stretches of plain text and control tokens. *)
Inductive Piece : Type :=
| Text (t : jsstring)
| Token (name : jsstring).

Definition render (p : Piece) : jsstring :=
  match p with
  | Text t => t
  | Token name => lit "<|" ++ name ++ lit "|>"
  end.

Definition renderAll (ps : list Piece) : jsstring :=
  concat (map render ps).

Definition textOf (p : Piece) : jsstring :=
  match p with
  | Text t => t
  | Token _ => []
  end.

Definition textsOf (ps : list Piece) : jsstring :=
  concat (map textOf ps).

(** The closing delimiter does not occur in [s]. *)
Fixpoint noClose (s : jsstring) : bool :=
  match s with
  | c :: r =>
      match r with
      | d :: _ => negb ((c =? PIPE) && (d =? GREATER)) && noClose r
      | [] => true
      end
  | [] => true
  end.

(** The name of a token stays on one line and ends at the first
    closing delimiter. *)
Definition tokenName (name : jsstring) : bool :=
  forallb (fun c => negb (isLineTerminator c)) name && noClose name.

Definition pipeFree (t : jsstring) : bool :=
  forallb (fun c => negb (c =? PIPE)) t.

Definition blank (t : jsstring) : bool := forallb isTrimmable t.

(** Tokens between stretches of text in which no [|] occurs. *)
Definition delimited (p : Piece) : bool :=
  match p with
  | Text t => pipeFree t
  | Token name => tokenName name
  end.

(** Tokens and whitespace only. *)
Definition tokenOrBlank (p : Piece) : bool :=
  match p with
  | Text t => blank t
  | Token name => tokenName name
  end.

Definition setOwn (k : jsstring) (v : Value)
                  (props : list (jsstring * Value))
  : list (jsstring * Value) :=
  map (fun kv => if jseqb (fst kv) k then (fst kv, v) else kv) props.

(** The content of the first message of a request body, when that is
    the system message. *)
Definition systemContent (b : JSONText) : option Value :=
  match b with
  | JSON_stringify v =>
      match path v [Name (lit "messages"); Index 0] with
      | Some m =>
          match field m (Name (lit "role")) with
          | Some (VString r) =>
              if jseqb r (lit "system") then field m (Name (lit "content"))
              else None
          | _ => None
          end
      | None => None
      end
  end.

(** The same request body with another content of its first message. *)
Definition withSystemContent (c : Value) (b : JSONText) : JSONText :=
  match b with
  | JSON_stringify (VObject props) =>
      match own props (lit "messages") with
      | Some (VArray (VObject sys :: rest)) =>
          JSON_stringify
            (VObject
               (setOwn (lit "messages")
                  (VArray (VObject (setOwn (lit "content") c sys) :: rest))
                  props))
      | _ => b
      end
  | _ => b
  end.

End Spec.

Import Spec.

(** ** Notions used in the statements *)

(** No timer is aimed at a controller that does not exist yet. *)
Definition wellFormed (w : World) : bool :=
  forallb (fun t => Nat.ltb (target t) (length (aborted w))) (timers w).

(** The backend lets every [await] of the service settle: it fails to
    connect, stays silent (the timer then aborts the request), or sends
    headers and a body that ends, JSON or not. *)
Definition settling (u : Upstream) : bool :=
  match u with
  | Responds _ BodyStalled => false
  | _ => true
  end.

(** [data.choices?.[0]?.message?.content]. *)
Definition found (data : Value) : Completion Value :=
  (choices <- getProp data (lit "choices") ;;
   first <- optional choices (fun v => getIndex v 0) ;;
   message <- optional first (fun v => getProp v (lit "message")) ;;
   optional message (fun v => getProp v (lit "content")))%completion.

(** [data.choices[0].message.content.replace(/<\|.*?\|>/g, '')]. *)
Definition cleaned (data : Value) : Completion jsstring :=
  (choices <- getProp data (lit "choices") ;;
   first <- getIndex choices 0 ;;
   message <- getProp first (lit "message") ;;
   content <- getProp message (lit "content") ;;
   replaceControlTokens content)%completion.

(** What the [try] block makes of the parsed payload. *)
Definition parsed (data : Value) : Completion (option jsstring) :=
  (f <- found data ;;
   if truthy f then (t <- cleaned data ;; Normal (Some (trim t)))
   else Normal None)%completion.

Definition isConfigured (key : option jsstring) : bool :=
  truthy (envValue key).

(** The first code unit is not [|]. *)
Definition noPipeAhead (s : jsstring) : bool :=
  match s with
  | c :: _ => negb (c =? PIPE)
  | [] => true
  end.

(** What is left of a completion once [catch] has turned a throw into
    [null]. *)
Definition absorbed (c : Completion (option jsstring)) : option jsstring :=
  match c with Normal v => v | _ => None end.

(** The text a payload yields: its expected content, when that is a
    string that is not empty, with the tokens stripped and trimmed. *)
Definition generated (data : Value) : option jsstring :=
  match expectedContent data with
  | Some (VString (c :: s)) => Some (trim (stripControlTokens (c :: s)))
  | _ => None
  end.

(** The object literal passed to [fetchWithTimeout]. *)
Definition requestInit (key : option jsstring) (persona prompt : jsstring)
  : RequestInit :=
  mkInit
    (lit "POST")
    [ (lit "Authorization", lit "Bearer " ++ envToString key);
      (lit "Content-Type", lit "application/json") ]
    (JSON_stringify
       (VObject
          [ (lit "model", VString AiService.MODEL_ID);
            (lit "messages",
             VArray
               [ VObject [ (lit "role", VString (lit "system"));
                           (lit "content", VString persona) ];
                 VObject [ (lit "role", VString (lit "user"));
                           (lit "content", VString prompt) ] ]);
            (lit "max_tokens", VNumber 800);
            (lit "temperature", VNumber 0.8);
            (lit "top_p", VNumber 0.9) ]))
    None.

(** The statements of the [try] block after [await aiRes.json()]. *)
Definition afterJson (data : Value) : Eff (option jsstring) :=
  (f <- liftC (found data) ;;
   if truthy f then (t <- liftC (cleaned data) ;; ret (Some (trim t)))
   else ret None)%eff.

(** The [catch] block. *)
Definition onError (error : Error) : Eff (option jsstring) :=
  (consoleError (lit "AI Error, using fallback") ;;; ret None)%eff.

(** The world while [fetch] is awaited inside [fetchWithTimeout]: the
    controller exists, the timer is armed, the request is out. *)
Definition inFlight (ms : N) (url : jsstring) (options : RequestInit)
                    (w : World) : World :=
  mkWorld (clock w)
          (timers w ++ [mkTimer (clock w + ms) (length (aborted w)) Armed])
          (aborted w ++ [false])
          (requests w ++ [(url, withSignal options (length (aborted w)))])
          (console w) (network w).

(** The world after [clearTimeout(id)]. *)
Definition cleared (id : TimerId) (w : World) : World :=
  snd (clearTimeout id w).

(** How the promise of [fetch] settles if it is not aborted. *)
Definition headersOf (c : ControllerId) (w : World)
  : option (N * Completion Response) :=
  match network w with
  | Unreachable l => Some (clock w + l, Throw NetworkError)
  | Silent => None
  | Responds l b =>
      Some (clock w + l, Normal (mkResponse (clock w + l) b (Some c)))
  end.

Definition exits {A} (c : Completion A) : bool :=
  match c with Pending => false | _ => true end.

Definition armedCount (w : World) : nat :=
  length (filter isArmed (timers w)).

Definition defaultTimeout (timeout : option N) : N :=
  match timeout with Some ms => ms | None => 40000 end.

(** The same world with another log of requests. *)
Definition setRequests (rs : list (jsstring * RequestInit)) (w : World)
  : World :=
  mkWorld (clock w) (timers w) (aborted w) rs (console w) (network w).

(** A computation that neither reads nor writes the log of requests. *)
Definition requestBlind {A} (m : Eff A) : Prop :=
  forall rs w, m (setRequests rs w) = (fst (m w), setRequests rs (snd (m w))).

(** Two requests that differ at most in the content of the system
    message, the second carrying [persona]. *)
Definition sameUpToSystemContent (persona : jsstring)
                                 (a b : jsstring * RequestInit) : Prop :=
  fst a = fst b
  /\ method (snd a) = method (snd b)
  /\ headers (snd a) = headers (snd b)
  /\ signal (snd a) = signal (snd b)
  /\ body (snd b) = withSystemContent (VString persona) (body (snd a)).

(** A timer after [clearTimeout]. *)
Definition clearOne (t : Timer) : Timer :=
  if isArmed t then mkTimer (deadline t) (target t) Cleared else t.

(** [a] is [b] with some of its code units deleted. *)
Inductive Subseq : jsstring -> jsstring -> Prop :=
| subseq_nil : Subseq [] []
| subseq_drop c a b : Subseq a b -> Subseq a (c :: b)
| subseq_keep c a b : Subseq a b -> Subseq (c :: a) (c :: b).

(** The opening delimiter [<|] does not occur in [s]. *)
Fixpoint noOpen (s : jsstring) : bool :=
  match s with
  | c :: r =>
      match r with
      | d :: _ => negb ((c =? LESS) && (d =? PIPE)) && noOpen r
      | [] => true
      end
  | [] => true
  end.

(** The payloads on which the [try] block throws: [null], where
    [data.choices] throws, and a content that is truthy and not a string,
    which has no [replace]. *)
Definition throwing (data : Value) : bool :=
  match data with
  | VUndefined | VNull => true
  | _ =>
      match expectedContent data with
      | Some (VString _) => false
      | Some v => truthy v
      | None => false
      end
  end.

(** The backends from which no parsed body is ever seen: no connection,
    no answer, headers at the deadline or later, a body that is not
    JSON. *)
Definition transportFailure (u : Upstream) : bool :=
  match u with
  | Unreachable _ | Silent => true
  | Responds l (BodyInvalid _) => true
  | Responds l _ => 40000 <=? l
  end.

(** The line the [catch] block prints. *)
Definition errorLine : jsstring := lit "AI Error, using fallback".

(** The value a request body serialises. *)
Definition bodyValue (init : RequestInit) : Value :=
  match body init with JSON_stringify v => v end.

(** The text of a request body, as it goes over the wire. *)
Definition bodyText (numberToString : float -> jsstring) (init : RequestInit)
  : option jsstring :=
  stringify numberToString (bodyValue init).

(** The three stretches of the body text of the service around the
    persona text and the prompt: up to the opening quote of the system
    content, from its closing quote to the opening quote of the user
    content, and after the closing quote of that. *)
Definition bodyHead : jsstring :=
  123 :: quoteJSONString (lit "model") ++ 58
      :: quoteJSONString AiService.MODEL_ID ++ 44
      :: quoteJSONString (lit "messages") ++ 58 :: 91 :: 123
      :: quoteJSONString (lit "role") ++ 58
      :: quoteJSONString (lit "system") ++ 44
      :: quoteJSONString (lit "content") ++ [58; 34].

Definition bodyMiddle : jsstring :=
  125 :: 44 :: 123
      :: quoteJSONString (lit "role") ++ 58
      :: quoteJSONString (lit "user") ++ 44
      :: quoteJSONString (lit "content") ++ [58; 34].

Definition bodyTail (numberToString : float -> jsstring) : jsstring :=
  125 :: 93 :: 44
      :: quoteJSONString (lit "max_tokens") ++ 58
      :: numberToString 800%float ++ 44
      :: quoteJSONString (lit "temperature") ++ 58
      :: numberToString 0.8%float ++ 44
      :: quoteJSONString (lit "top_p") ++ 58
      :: numberToString 0.9%float ++ [125].

(** One call after another, as in [await generateAIResponse(p1); await
    generateAIResponse(p2)]. *)
Definition twoCalls (key : option jsstring) (persona p1 p2 : jsstring)
  : Eff (option jsstring) :=
  (_ <- AiService.generateAIResponse key persona p1 ;;
   AiService.generateAIResponse key persona p2)%eff.

(** What a computation leaves as it found it: that no timer is aimed at a
    controller to come, the backend, the number of controllers. *)
Definition keeps {A} (m : Eff A) : Prop :=
  forall w,
    (wellFormed w = true -> wellFormed (snd (m w)) = true)
    /\ network (snd (m w)) = network w
    /\ length (aborted (snd (m w))) = length (aborted w).

(** The delays that [setTimeout] takes as they are given: from 1 ms to
    2147483647 ms. Any other delay the run time replaces by 1 ms. *)
Definition honouredDelay (ms : N) : bool :=
  (1 <=? ms) && (ms <=? 2147483647).

(** Sample inputs. *)
Definition sampleKey : option jsstring := Some (lit "hf_key").
Definition samplePersona : jsstring := lit "You are Marcus Aurelius.".
Definition samplePrompt : jsstring := lit "How do I stay calm?".

(** [Number::toString] at the three numbers of the request body. *)
Definition sampleNumberToString (x : float) : jsstring :=
  if PrimFloat.eqb x 800 then lit "800"
  else if PrimFloat.eqb x 0.8 then lit "0.8"
  else if PrimFloat.eqb x 0.9 then lit "0.9"
  else [].

(** A chat completion payload with the given content. *)
Definition completion (content : Value) : Value :=
  VObject
    [ (lit "choices",
       VArray
         [ VObject
             [ (lit "message", VObject [ (lit "content", content) ]) ] ]) ].

(** * Properties *)

Unset Implicit Arguments.

(** ** Strings *)

Lemma stripControlTokens_cons c r :
  stripControlTokens (c :: r) =
  match matchToken (c :: r) with
  | Some rest => stripControlTokens rest
  | None => c :: stripControlTokens r
  end.
Proof.
  rewrite stripControlTokens_equation_2. unfold inspect.
  assert (G : forall x (e : matchToken (c :: r) = x),
             stripControlTokens_unfold_clause_2 c r (exist _ x e) =
             match x with
             | Some rest => stripControlTokens rest
             | None => c :: stripControlTokens r
             end).
  { intros [rest|] e; simp stripControlTokens; reflexivity. }
  apply G.
Qed.

Lemma trimStart_suffix s : exists pre, s = pre ++ trimStart s.
Proof.
  induction s as [|c s [pre IH]]; simpl.
  - exists []. reflexivity.
  - destruct (isTrimmable c).
    + exists (c :: pre). simpl. rewrite <- IH. reflexivity.
    + exists []. reflexivity.
Qed.

Lemma edgeClean_trimStart s : edgeClean (trimStart s) = true.
Proof.
  induction s as [|c s IH]; simpl; [reflexivity|].
  destruct (isTrimmable c) eqn:E; [exact IH|].
  simpl. rewrite E. reflexivity.
Qed.

Lemma edgeClean_prefix a b :
  edgeClean (a ++ b) = true -> edgeClean a = true.
Proof. destruct a; simpl; auto. Qed.

Lemma trim_trimmed s : trimmed (trim s) = true.
Proof.
  unfold trimmed, trim, trimEnd. apply andb_true_iff. split.
  - destruct (trimStart_suffix (rev (trimStart s))) as [pre E].
    apply (edgeClean_prefix _ (rev pre)).
    rewrite <- rev_app_distr, <- E, rev_involutive.
    apply edgeClean_trimStart.
  - rewrite rev_involutive. apply edgeClean_trimStart.
Qed.

Lemma forallb_trimStart (p : char16 -> bool) s :
  forallb p s = true -> forallb p (trimStart s) = true.
Proof.
  intros H. destruct (trimStart_suffix s) as [pre E].
  rewrite E, forallb_app in H. apply andb_true_iff in H. apply H.
Qed.

Lemma forallb_rev (p : char16 -> bool) s :
  forallb p s = true -> forallb p (rev s) = true.
Proof.
  rewrite !forallb_forall. intros H x Hx. apply H, in_rev, Hx.
Qed.

Lemma forallb_trim (p : char16 -> bool) s :
  forallb p s = true -> forallb p (trim s) = true.
Proof.
  intros H. unfold trim, trimEnd.
  apply forallb_rev, forallb_trimStart, forallb_rev, forallb_trimStart, H.
Qed.

Lemma trimStart_blank s : blank s = true -> trimStart s = [].
Proof.
  induction s as [|c s IH]; simpl; [reflexivity|].
  intros H. apply andb_true_iff in H. destruct H as [Hc Hs].
  rewrite Hc. apply IH, Hs.
Qed.

Lemma trim_blank s : blank s = true -> trim s = [].
Proof.
  intros H. unfold trim, trimEnd. rewrite (trimStart_blank _ H). reflexivity.
Qed.

Lemma trimmable_not_pipe c : isTrimmable c = true -> (c =? PIPE) = false.
Proof.
  intros H. destruct (c =? PIPE) eqn:E; [|reflexivity].
  apply N.eqb_eq in E. subst c. discriminate H.
Qed.

Lemma blank_pipeFree t : blank t = true -> pipeFree t = true.
Proof.
  unfold blank, pipeFree. rewrite !forallb_forall. intros H c Hc.
  rewrite (trimmable_not_pipe _ (H c Hc)). reflexivity.
Qed.

(** A string in which [|] does not occur has no control token. *)
Lemma pipeFree_no_token s :
  pipeFree s = true -> ~ containsControlToken s.
Proof.
  intros H (a & n & b & E). subst s. unfold pipeFree in H.
  rewrite forallb_app in H. apply andb_true_iff in H. destruct H as [_ H].
  discriminate H.
Qed.

Lemma closeToken_name name r :
  tokenName name = true -> closeToken (name ++ lit "|>" ++ r) = Some r.
Proof.
  unfold tokenName. intros H. apply andb_true_iff in H. destruct H as [L C].
  induction name as [|c n IH]; [reflexivity|].
  simpl in L. apply andb_true_iff in L. destruct L as [Lc Ln].
  apply negb_true_iff in Lc.
  change ((c :: n) ++ lit "|>" ++ r) with (c :: (n ++ lit "|>" ++ r)).
  destruct n as [|d n'].
  - change (closeToken (c :: ([] ++ lit "|>" ++ r)))
      with (if (c =? PIPE) && (PIPE =? GREATER) then Some (GREATER :: r)
            else if isLineTerminator c then None
                 else closeToken ([] ++ lit "|>" ++ r)).
    rewrite andb_false_r, Lc. reflexivity.
  - change (closeToken (c :: ((d :: n') ++ lit "|>" ++ r)))
      with (if (c =? PIPE) && (d =? GREATER) then Some (n' ++ lit "|>" ++ r)
            else if isLineTerminator c then None
                 else closeToken ((d :: n') ++ lit "|>" ++ r)).
    simpl in C. apply andb_true_iff in C. destruct C as [Cc Cn].
    apply negb_true_iff in Cc. rewrite Cc, Lc. apply IH; assumption.
Qed.

Lemma matchToken_token name r :
  tokenName name = true -> matchToken (render (Token name) ++ r) = Some r.
Proof.
  intros H. simpl. rewrite <- app_assoc. apply closeToken_name, H.
Qed.

Lemma matchToken_text c r :
  (c =? PIPE) = false -> noPipeAhead r = true -> matchToken (c :: r) = None.
Proof.
  intros Hc Hr. destruct r as [|d r]; [reflexivity|].
  simpl in Hr. apply negb_true_iff in Hr.
  simpl. rewrite Hr, andb_false_r. reflexivity.
Qed.

Lemma noPipeAhead_app t r :
  pipeFree t = true -> noPipeAhead r = true -> noPipeAhead (t ++ r) = true.
Proof.
  destruct t as [|c t]; simpl; [auto|].
  intros H _. apply andb_true_iff in H. apply H.
Qed.

Lemma stripControlTokens_text t r :
  pipeFree t = true -> noPipeAhead r = true ->
  stripControlTokens (t ++ r) = t ++ stripControlTokens r.
Proof.
  intros Ht Hr. induction t as [|c t IH]; [reflexivity|].
  simpl in Ht. apply andb_true_iff in Ht. destruct Ht as [Hc Ht].
  apply negb_true_iff in Hc.
  change ((c :: t) ++ r) with (c :: (t ++ r)).
  rewrite stripControlTokens_cons.
  rewrite matchToken_text;
    [ rewrite (IH Ht); reflexivity
    | exact Hc
    | apply noPipeAhead_app; assumption ].
Qed.

Lemma noPipeAhead_renderAll ps :
  forallb delimited ps = true -> noPipeAhead (renderAll ps) = true.
Proof.
  induction ps as [|p ps IH]; [reflexivity|].
  simpl. intros H. apply andb_true_iff in H. destruct H as [Hp Hps].
  unfold renderAll. simpl. fold (renderAll ps).
  destruct p as [t|name]; simpl.
  - apply noPipeAhead_app; [exact Hp | apply IH, Hps].
  - reflexivity.
Qed.

(** One pass over tokens set between stretches of text without [|]
    leaves the text. *)
Lemma stripControlTokens_pieces ps :
  forallb delimited ps = true ->
  stripControlTokens (renderAll ps) = textsOf ps.
Proof.
  induction ps as [|p ps IH]; [reflexivity|].
  simpl. intros H. apply andb_true_iff in H. destruct H as [Hp Hps].
  unfold renderAll, textsOf. simpl. fold (renderAll ps) (textsOf ps).
  destruct p as [t|name].
  - simpl. rewrite stripControlTokens_text.
    + rewrite (IH Hps). reflexivity.
    + exact Hp.
    + apply noPipeAhead_renderAll, Hps.
  - pose proof (matchToken_token name (renderAll ps) Hp) as M.
    simpl in M |- *.
    rewrite stripControlTokens_cons. simpl. rewrite M. apply IH, Hps.
Qed.

Lemma pipeFree_textsOf ps :
  forallb delimited ps = true -> pipeFree (textsOf ps) = true.
Proof.
  induction ps as [|p ps IH]; [reflexivity|].
  simpl. intros H. apply andb_true_iff in H. destruct H as [Hp Hps].
  unfold textsOf. simpl. fold (textsOf ps).
  unfold pipeFree. rewrite forallb_app. apply andb_true_iff. split.
  - destruct p; [exact Hp | reflexivity].
  - apply IH, Hps.
Qed.

Lemma tokenOrBlank_delimited ps :
  forallb tokenOrBlank ps = true -> forallb delimited ps = true.
Proof.
  rewrite !forallb_forall. intros H p Hp. specialize (H p Hp).
  destruct p; simpl in *; [apply blank_pipeFree, H | exact H].
Qed.

Lemma blank_textsOf ps :
  forallb tokenOrBlank ps = true -> blank (textsOf ps) = true.
Proof.
  induction ps as [|p ps IH]; [reflexivity|].
  simpl. intros H. apply andb_true_iff in H. destruct H as [Hp Hps].
  unfold textsOf. simpl. fold (textsOf ps).
  unfold blank. rewrite forallb_app. apply andb_true_iff. split.
  - destruct p; [exact Hp | reflexivity].
  - apply IH, Hps.
Qed.

(** ** Payloads *)

Ltac settled := split; [discriminate | reflexivity].

Lemma parsed_from_first first :
  let f := (message <- optional first (fun v => getProp v (lit "message")) ;;
            optional message (fun v => getProp v (lit "content")))%completion in
  let t := (message <- getProp first (lit "message") ;;
            content <- getProp message (lit "content") ;;
            replaceControlTokens content)%completion in
  let r := (x <- f ;;
            if truthy x then (y <- t ;; Normal (Some (trim y)))
            else Normal None)%completion in
  r <> Pending /\
  absorbed r =
  match path first [Name (lit "message"); Name (lit "content")] with
  | Some (VString (c :: s)) => Some (trim (stripControlTokens (c :: s)))
  | _ => None
  end.
Proof.
  destruct first as [ | | ? | ? | ? | ? | fprops ]; simpl; try settled.
  destruct (own fprops (lit "message")) as [message|]; simpl; try settled.
  destruct message as [ | | ? | ? | ? | ? | mprops ]; simpl; try settled.
  destruct (own mprops (lit "content")) as [content|]; simpl; try settled.
  destruct content as [ | | [|] | x | [|? ?] | ? | ? ]; simpl; try settled.
  destruct (negb _); simpl; settled.
Qed.

(** The two chains of property accesses of the [try] block find the text
    where the payload has the expected fields, and nowhere else; whatever
    they throw, [catch] turns into [null]. *)
Lemma parsed_generated data :
  parsed data <> Pending /\ absorbed (parsed data) = generated data.
Proof.
  unfold parsed, found, cleaned, generated, expectedContent, expectedFields.
  destruct data as [ | | ? | ? | ? | ? | props ]; simpl; try settled.
  destruct (own props (lit "choices")) as [choices|]; simpl; try settled.
  destruct choices as [ | | ? | ? | [|? ?] | [|first rest] | cprops ]; simpl;
    try settled.
  - apply (parsed_from_first first).
  - destruct (own cprops (indexKey 0)) as [first|]; simpl; try settled.
    apply (parsed_from_first first).
Qed.

Lemma afterJson_parsed data w : afterJson data w = (parsed data, w).
Proof.
  unfold afterJson, parsed, bind, liftC, ret.
  destruct (found data) as [f| |]; simpl; try reflexivity.
  destruct (truthy f); [|reflexivity].
  destruct (cleaned data); reflexivity.
Qed.

(** ** The service, statement by statement *)

Lemma generateAIResponse_shape key persona prompt :
  AiService.generateAIResponse key persona prompt =
  if negb (isConfigured key) then ret None
  else tryCatch
         (aiRes <- AiService.fetchWithTimeout AiService.HF_ROUTER_URL
                     (requestInit key persona prompt) None ;;
          data <- json aiRes ;;
          afterJson data)%eff
         onError.
Proof. reflexivity. Qed.

Lemma fetchWithTimeout_shape url options timeout w :
  AiService.fetchWithTimeout url options timeout w =
  match await (Some (length (aborted w))) (headersOf (length (aborted w)) w)
              (inFlight (defaultTimeout timeout) url options w) with
  | (Pending, w') => (Pending, w')
  | (r, w') => (r, cleared (length (timers w)) w')
  end.
Proof.
  set (a := await _ _ _).
  unfold AiService.fetchWithTimeout, newAbortController, setTimeoutAbort.
  unfold bind at 1. cbn beta iota. unfold bind at 1. cbn beta iota.
  unfold tryFinally, bind.
  match goal with |- context [fetch ?u ?i ?w0] =>
    change (fetch u i w0) with a end.
  destruct a as [[r| |] w']; reflexivity.
Qed.

(** ** Timers and signals *)

Lemma earliest_app_bound l x : exists d, earliest (l ++ [x]) = Some d /\ d <= x.
Proof.
  induction l as [|y l (d & IH & B)]; simpl.
  - exists x. split; [reflexivity | lia].
  - rewrite IH. exists (N.min y d). split; [reflexivity | lia].
Qed.

Lemma nth_fresh (flags : list bool) :
  nth (length flags) (flags ++ [false]) false = false.
Proof. induction flags; simpl; auto. Qed.

Lemma filter_none {A} (p : A -> bool) l :
  (forall x, In x l -> p x = false) -> filter p l = [].
Proof.
  induction l as [|a l IH]; simpl; intros H; [reflexivity|].
  rewrite (H a (or_introl eq_refl)). apply IH. intros x Hx. apply H. auto.
Qed.

Lemma wellFormed_target w t :
  wellFormed w = true -> In t (timers w) ->
  Nat.eqb (target t) (length (aborted w)) = false.
Proof.
  unfold wellFormed. rewrite forallb_forall. intros H Ht.
  specialize (H t Ht). apply Nat.ltb_lt in H. apply Nat.eqb_neq. lia.
Qed.

(** While [fetch] is awaited the signal is due to abort, at the deadline
    at the latest. *)
Lemma abortTime_inFlight_bound ms url options w :
  exists d, abortTime (inFlight ms url options w) (length (aborted w)) = Some d
            /\ d <= clock w + ms.
Proof.
  unfold abortTime, inFlight. simpl. rewrite nth_fresh.
  rewrite filter_app, map_app. simpl. rewrite Nat.eqb_refl. simpl.
  destruct (earliest_app_bound
              (map (fun t => N.max (clock w) (deadline t))
                   (filter (fun t => isArmed t
                                     && Nat.eqb (target t) (length (aborted w)))
                           (timers w)))
              (N.max (clock w) (clock w + ms))) as (d & E & B).
  exists d. split; [exact E | lia].
Qed.

Lemma abortTime_inFlight_wf ms url options w :
  wellFormed w = true ->
  abortTime (inFlight ms url options w) (length (aborted w))
  = Some (clock w + ms).
Proof.
  intros W. unfold abortTime, inFlight. simpl. rewrite nth_fresh.
  rewrite filter_app, filter_none.
  - simpl. rewrite Nat.eqb_refl. simpl. f_equal. lia.
  - intros t Ht. rewrite (wellFormed_target w t W Ht). apply andb_false_r.
Qed.

Lemma await_exits {A} c (settles : option (N * Completion A)) w d :
  abortTime w c = Some d ->
  (forall t r, settles = Some (t, r) -> exits r = true) ->
  exits (fst (await (Some c) settles w)) = true.
Proof.
  intros E H. unfold await. rewrite E.
  destruct settles as [[t r]|]; [|reflexivity].
  destruct (t <? d); [|reflexivity]. simpl. apply (H t r eq_refl).
Qed.

Lemma await_requests {A} sig (settles : option (N * Completion A)) w :
  requests (snd (await sig settles w)) = requests w.
Proof.
  unfold await.
  destruct settles as [[t r]|];
    destruct (match sig with Some c => abortTime w c | None => None end);
    try destruct (t <? _); reflexivity.
Qed.

(** An [await] ends as the operation settles, or with [AbortError], or
    never when the operation never settles. *)
Lemma await_cases {A} sig (settles : option (N * Completion A)) w :
  fst (await sig settles w) = Throw AbortError
  \/ (exists t, settles = Some (t, fst (await sig settles w)))
  \/ (settles = None /\ fst (await sig settles w) = Pending).
Proof.
  unfold await.
  destruct settles as [[t r]|];
    destruct (match sig with Some c => abortTime w c | None => None end);
    try destruct (t <? _); simpl; eauto.
Qed.

Lemma headersOf_exits c w t r : headersOf c w = Some (t, r) -> exits r = true.
Proof.
  unfold headersOf. destruct (network w); intros [= <- <-] || discriminate;
    reflexivity.
Qed.

(** [fetchWithTimeout] always comes to an end. *)
Lemma fetchWithTimeout_exits url options timeout w :
  exits (fst (AiService.fetchWithTimeout url options timeout w)) = true.
Proof.
  rewrite fetchWithTimeout_shape.
  destruct (abortTime_inFlight_bound (defaultTimeout timeout) url options w)
    as (d & E & _).
  pose proof (await_exits (length (aborted w))
                (headersOf (length (aborted w)) w) _ d E
                (headersOf_exits (length (aborted w)) w)) as X.
  destruct (await _ _ _) as [[r| |] w']; simpl in *;
    [reflexivity | reflexivity | discriminate].
Qed.

(** ** Every run of [generateAIResponse] *)

Lemma onError_null e w : fst (onError e w) = Normal None.
Proof. reflexivity. Qed.

Lemma json_cases res w :
  fst (json res w) = Throw AbortError
  \/ (exists l data, payload_of res = BodyJSON l data
                     /\ fst (json res w) = Normal data)
  \/ (exists l, payload_of res = BodyInvalid l
                /\ fst (json res w) = Throw SyntaxError)
  \/ (payload_of res = BodyStalled /\ fst (json res w) = Pending).
Proof.
  unfold json.
  destruct (await_cases (signal_of res)
              (match payload_of res with
               | BodyJSON l data =>
                   Some (N.max (clock w) (arrived res + l), Normal data)
               | BodyInvalid l =>
                   Some (N.max (clock w) (arrived res + l), Throw SyntaxError)
               | BodyStalled => None
               end) w) as [H | [[t H] | [H1 H2]]].
  - left. exact H.
  - right. destruct (payload_of res) as [l data | l |];
      [left | right; left | discriminate]; injection H as _ H.
    + exists l, data. split; [reflexivity | symmetry; exact H].
    + exists l. split; [reflexivity | symmetry; exact H].
  - right. right. right. destruct (payload_of res); try discriminate.
    split; [reflexivity | exact H2].
Qed.

(** What the [try] block does once the response is there. *)
Lemma response_cases res w :
  let r := fst (tryCatch (data <- json res ;; afterJson data)%eff onError w) in
  r = Normal None
  \/ (payload_of res = BodyStalled /\ r = Pending)
  \/ (exists l data, payload_of res = BodyJSON l data
                     /\ r = Normal (generated data)).
Proof.
  unfold tryCatch, bind.
  destruct (json_cases res w)
    as [H | [(l & data & P & H) | [(l & P & H) | [P H]]]];
    destruct (json res w) as [[data'| e |] w']; simpl in H; try discriminate.
  - left. reflexivity.
  - injection H as ->. right. right. exists l, data. split; [exact P|].
    rewrite afterJson_parsed.
    destruct (parsed_generated data) as [NP G].
    destruct (parsed data) as [v| e |]; simpl in *;
      [rewrite G; reflexivity | rewrite <- G; reflexivity | contradiction].
  - left. reflexivity.
  - right. left. split; [exact P | reflexivity].
Qed.

Lemma tryCatch_bind {A B} (m : Eff A) (k : A -> Eff B) h w :
  tryCatch (bind m k) h w =
  match m w with
  | (Normal a, w') => tryCatch (k a) h w'
  | (Throw e, w') => h e w'
  | (Pending, w') => (Pending, w')
  end.
Proof. unfold tryCatch, bind. destruct (m w) as [[a| e |] w']; reflexivity. Qed.

(** How [fetchWithTimeout] ends: with the response of the backend, with
    its network error, or with [AbortError]. *)
Lemma fetchWithTimeout_cases url options timeout w :
  let r := fst (AiService.fetchWithTimeout url options timeout w) in
  r = Throw AbortError
  \/ (exists l, network w = Unreachable l /\ r = Throw NetworkError)
  \/ (exists l b, network w = Responds l b
                  /\ r = Normal (mkResponse (clock w + l) b
                                            (Some (length (aborted w))))).
Proof.
  pose proof (fetchWithTimeout_exits url options timeout w) as X.
  rewrite fetchWithTimeout_shape in *.
  destruct (await_cases (Some (length (aborted w)))
              (headersOf (length (aborted w)) w)
              (inFlight (defaultTimeout timeout) url options w))
    as [H | [[t H] | [_ H]]];
    destruct (await _ _ _) as [[res| e |] w']; simpl in *;
    try discriminate; auto.
  - right. unfold headersOf in H. destruct (network w) as [l | | l b];
      try discriminate. right. exists l, b. split; [reflexivity|].
    inversion H. reflexivity.
  - right. unfold headersOf in H. destruct (network w) as [l | | l b];
      try discriminate. left. exists l. split; [reflexivity|].
    inversion H. reflexivity.
Qed.

(** Every run of the configured service ends in one of three ways: [null]
    is returned; or the body of the response never ends and neither does
    the call; or the body is JSON and what it yields is returned. *)
Lemma generateAIResponse_cases key persona prompt w :
  isConfigured key = true ->
  let r := fst (AiService.generateAIResponse key persona prompt w) in
  r = Normal None
  \/ (r = Pending /\ exists l, network w = Responds l BodyStalled)
  \/ (exists l lb data, network w = Responds l (BodyJSON lb data)
                        /\ r = Normal (generated data)).
Proof.
  intros K. rewrite generateAIResponse_shape, K.
  change (negb true) with false. cbv iota.
  rewrite tryCatch_bind.
  destruct (fetchWithTimeout_cases AiService.HF_ROUTER_URL
              (requestInit key persona prompt) None w)
    as [H | [(l & Net & H) | (l & b & Net & H)]];
    destruct (AiService.fetchWithTimeout _ _ _ _) as [[res| e |] w'];
    simpl in H; try discriminate; try (left; reflexivity).
  injection H as ->.
  destruct (response_cases
              (mkResponse (clock w + l) b (Some (length (aborted w)))) w')
    as [H | [[P H] | (lb & data & P & H)]].
  - left. exact H.
  - right. left. simpl in P. subst b. split; [exact H|]. exists l. exact Net.
  - right. right. simpl in P. subst b. exists l, lb, data.
    split; [exact Net | exact H].
Qed.

(** ** Runs from a well-formed world *)

Lemma target_fire now t : target (fire now t) = target t.
Proof. unfold fire. destruct (isDue now t); reflexivity. Qed.

Lemma isArmed_fire now t : isArmed (fire now t) = true -> isArmed t = true.
Proof.
  unfold fire. destruct (isDue now t) eqn:D; [discriminate | auto].
Qed.

Lemma isArmed_clearOne t : isArmed (clearOne t) = false.
Proof.
  unfold clearOne. destruct (isArmed t) eqn:E; [reflexivity | exact E].
Qed.

Lemma clearAt_last l x : clearAt (length l) (l ++ [x]) = l ++ [clearOne x].
Proof.
  induction l as [|y l IH]; simpl; [reflexivity | rewrite IH; reflexivity].
Qed.

(** The timers when [fetchWithTimeout] is left: those of before, some of
    them run meanwhile, and the one of the call, cleared. *)
Lemma timers_after ms url options w t :
  timers (cleared (length (timers w)) (advance t (inFlight ms url options w)))
  = map (fire (N.max (clock w) t)) (timers w)
    ++ [clearOne (fire (N.max (clock w) t)
                       (mkTimer (clock w + ms) (length (aborted w)) Armed))].
Proof.
  unfold cleared, advance, inFlight, clearTimeout. simpl.
  rewrite map_app. simpl.
  rewrite <- (length_map (fire (N.max (clock w) t)) (timers w)) at 1.
  apply clearAt_last.
Qed.

Lemma nth_abortTargets due flags : forall from i,
  nth i (abortTargets due from flags) false = true ->
  nth i flags false = true
  \/ existsb (fun t => Nat.eqb (target t) (from + i)) due = true.
Proof.
  induction flags as [|b flags IH]; intros from i; simpl.
  - destruct i; discriminate.
  - destruct i as [|i].
    + rewrite Nat.add_0_r. intros H. apply orb_true_iff in H. exact H.
    + intros H. apply IH in H. rewrite Nat.add_succ_r. exact H.
Qed.

Lemma not_due_in_time w ms t :
  clock w <= t -> t < clock w + ms ->
  isDue (N.max (clock w) t)
        (mkTimer (clock w + ms) (length (aborted w)) Armed) = false.
Proof.
  intros L H. unfold isDue, isArmed.
  cbn [status deadline andb]. apply N.leb_gt. lia.
Qed.

(** When [fetchWithTimeout] has returned within the deadline, the signal
    of the request has not aborted, *)
Lemma not_aborted_after ms url options w t :
  wellFormed w = true -> clock w <= t -> t < clock w + ms ->
  nth (length (aborted w))
      (aborted (cleared (length (timers w))
                        (advance t (inFlight ms url options w))))
      false = false.
Proof.
  intros W L H. apply not_true_is_false. intros F.
  unfold cleared, advance, inFlight, clearTimeout in F. simpl in F.
  apply nth_abortTargets in F. rewrite nth_fresh in F.
  destruct F as [F | F]; [discriminate|].
  apply existsb_exists in F. destruct F as (x & Hx & E).
  change (0 + length (aborted w))%nat with (length (aborted w)) in E.
  apply filter_In in Hx. destruct Hx as [Hx D].
  apply in_app_or in Hx. destruct Hx as [Hx | [<- | []]].
  - rewrite (wellFormed_target w x W Hx) in E. discriminate.
  - rewrite (not_due_in_time w ms t L H) in D. discriminate.
Qed.

(** and nothing is left that would abort it. *)
Lemma abortTime_after ms url options w t :
  wellFormed w = true -> clock w <= t -> t < clock w + ms ->
  abortTime (cleared (length (timers w))
                     (advance t (inFlight ms url options w)))
            (length (aborted w)) = None.
Proof.
  intros W L H. unfold abortTime.
  rewrite (not_aborted_after ms url options w t W L H), timers_after.
  rewrite filter_none; [reflexivity|].
  intros x Hx. apply in_app_or in Hx. destruct Hx as [Hx | [<- | []]].
  - apply in_map_iff in Hx. destruct Hx as (t0 & <- & Ht0).
    rewrite target_fire, (wellFormed_target w t0 W Ht0).
    apply andb_false_r.
  - rewrite isArmed_clearOne. reflexivity.
Qed.

Lemma await_in_time {A} c (r : Completion A) w t d :
  abortTime w c = Some d -> t < d ->
  await (Some c) (Some (t, r)) w = (r, advance t w).
Proof.
  intros E H. unfold await. rewrite E.
  apply N.ltb_lt in H. rewrite H. reflexivity.
Qed.

Lemma await_unaborted {A} c (settles : option (N * Completion A)) w :
  abortTime w c = None ->
  await (Some c) settles w =
  match settles with
  | Some (t, r) => (r, advance t w)
  | None => (Pending, w)
  end.
Proof.
  intros E. unfold await. rewrite E. destruct settles as [[t r]|]; reflexivity.
Qed.

(** Headers that arrive before the deadline: [fetchWithTimeout] returns
    the response when they arrive and leaves the timer cleared. *)
Lemma fetchWithTimeout_in_time url options timeout w l b :
  wellFormed w = true -> network w = Responds l b ->
  l < defaultTimeout timeout ->
  AiService.fetchWithTimeout url options timeout w =
  (Normal (mkResponse (clock w + l) b (Some (length (aborted w)))),
   cleared (length (timers w))
           (advance (clock w + l)
                    (inFlight (defaultTimeout timeout) url options w))).
Proof.
  intros W Net H. rewrite fetchWithTimeout_shape.
  unfold headersOf. rewrite Net.
  rewrite (await_in_time _ _ _ _ (clock w + defaultTimeout timeout)).
  - reflexivity.
  - apply abortTime_inFlight_wf, W.
  - lia.
Qed.

(** No headers before the deadline: the timer runs, the request is
    aborted at the deadline, and [fetchWithTimeout] throws. *)
Lemma fetchWithTimeout_deadline url options timeout w :
  wellFormed w = true ->
  match network w with
  | Silent => True
  | Unreachable l | Responds l _ => defaultTimeout timeout <= l
  end ->
  AiService.fetchWithTimeout url options timeout w =
  (Throw AbortError,
   cleared (length (timers w))
           (advance (clock w + defaultTimeout timeout)
                    (inFlight (defaultTimeout timeout) url options w))).
Proof.
  intros W H. rewrite fetchWithTimeout_shape.
  unfold await. rewrite (abortTime_inFlight_wf _ _ _ _ W).
  unfold headersOf.
  destruct (network w) as [l | | l b]; try reflexivity;
    replace (clock w + l <? clock w + defaultTimeout timeout) with false
      by (symmetry; apply N.ltb_ge; lia);
    reflexivity.
Qed.

(** ** What goes out *)

Lemma fetchWithTimeout_requests url options timeout w :
  requests (snd (AiService.fetchWithTimeout url options timeout w))
  = requests w ++ [(url, withSignal options (length (aborted w)))].
Proof.
  rewrite fetchWithTimeout_shape.
  pose proof (await_requests (Some (length (aborted w)))
                (headersOf (length (aborted w)) w)
                (inFlight (defaultTimeout timeout) url options w)) as R.
  destruct (await _ _ _) as [[res| e |] w']; simpl in *; exact R.
Qed.

Lemma response_requests res w :
  requests (snd (tryCatch (data <- json res ;; afterJson data)%eff onError w))
  = requests w.
Proof.
  unfold tryCatch, bind.
  pose proof (await_requests (signal_of res)
                (match payload_of res with
                 | BodyJSON l data =>
                     Some (N.max (clock w) (arrived res + l), Normal data)
                 | BodyInvalid l =>
                     Some (N.max (clock w) (arrived res + l),
                           Throw SyntaxError)
                 | BodyStalled => None
                 end) w) as R.
  change (await _ _ w) with (json res w) in R.
  destruct (json res w) as [[data| e |] w']; simpl in *; try exact R.
  rewrite afterJson_parsed. destruct (parsed data); simpl; exact R.
Qed.

(** The configured service sends one request, whatever happens next. *)
Lemma generateAIResponse_requests key persona prompt w :
  isConfigured key = true ->
  requests (snd (AiService.generateAIResponse key persona prompt w))
  = requests w
    ++ [(AiService.HF_ROUTER_URL,
         withSignal (requestInit key persona prompt) (length (aborted w)))].
Proof.
  intros K. rewrite generateAIResponse_shape, K.
  change (negb true) with false. cbv iota. rewrite tryCatch_bind.
  pose proof (fetchWithTimeout_requests AiService.HF_ROUTER_URL
                (requestInit key persona prompt) None w) as R.
  destruct (AiService.fetchWithTimeout _ _ _ _) as [[res| e |] w'];
    simpl in R.
  - rewrite response_requests. exact R.
  - exact R.
  - exact R.
Qed.

(** ** Runs in which the headers arrive in time *)

Lemma generateAIResponse_in_time key persona prompt w l b :
  isConfigured key = true -> wellFormed w = true ->
  network w = Responds l b -> l < 40000 ->
  let w2 := cleared (length (timers w))
              (advance (clock w + l)
                 (inFlight 40000 AiService.HF_ROUTER_URL
                           (requestInit key persona prompt) w)) in
  AiService.generateAIResponse key persona prompt w =
  match b with
  | BodyStalled => (Pending, w2)
  | BodyInvalid lb =>
      onError SyntaxError (advance (N.max (clock w2) (clock w + l + lb)) w2)
  | BodyJSON lb data =>
      let w3 := advance (N.max (clock w2) (clock w + l + lb)) w2 in
      match parsed data with
      | Throw e => onError e w3
      | r => (r, w3)
      end
  end.
Proof.
  intros K W Net H w2. rewrite generateAIResponse_shape, K.
  change (negb true) with false. cbv iota. rewrite tryCatch_bind.
  rewrite (fetchWithTimeout_in_time _ _ None w l b W Net H).
  fold w2. unfold tryCatch, bind, json.
  cbn [signal_of payload_of arrived].
  rewrite await_unaborted
    by (apply abortTime_after; [exact W | lia | unfold defaultTimeout; lia]).
  destruct b as [lb data | lb |]; cbv iota beta.
  - rewrite afterJson_parsed.
    destruct (parsed data); reflexivity.
  - reflexivity.
  - reflexivity.
Qed.

(** ** Headers that come too late *)

(** Whatever the backend does at the deadline or later is not seen: the
    request has been aborted by then. *)
Lemma fetchWithTimeout_late url options timeout w :
  match network w with
  | Silent => True
  | Unreachable l | Responds l _ => defaultTimeout timeout <= l
  end ->
  fst (AiService.fetchWithTimeout url options timeout w) = Throw AbortError.
Proof.
  intros H. rewrite fetchWithTimeout_shape.
  destruct (abortTime_inFlight_bound (defaultTimeout timeout) url options w)
    as (d & E & B).
  unfold await. rewrite E. unfold headersOf.
  destruct (network w) as [l | | l b]; try reflexivity;
    replace (clock w + l <? d) with false
      by (symmetry; apply N.ltb_ge; lia);
    reflexivity.
Qed.

Lemma generateAIResponse_late key persona prompt w :
  match network w with
  | Silent => True
  | Unreachable l | Responds l _ => 40000 <= l
  end ->
  fst (AiService.generateAIResponse key persona prompt w) = Normal None.
Proof.
  intros H. rewrite generateAIResponse_shape.
  destruct (isConfigured key); [|reflexivity].
  change (negb true) with false. cbv iota. rewrite tryCatch_bind.
  pose proof (fetchWithTimeout_late AiService.HF_ROUTER_URL
                (requestInit key persona prompt) None w H) as F.
  destruct (AiService.fetchWithTimeout _ _ _ _) as [[res| e |] w'];
    simpl in F; try discriminate.
  reflexivity.
Qed.

Lemma generateAIResponse_unconfigured key persona prompt w :
  isConfigured key = false ->
  AiService.generateAIResponse key persona prompt w = (Normal None, w).
Proof.
  intros K. rewrite generateAIResponse_shape, K. reflexivity.
Qed.

(** [catch] leaves nothing to throw. *)
Lemma generateAIResponse_never_throws key persona prompt w e :
  fst (AiService.generateAIResponse key persona prompt w) <> Throw e.
Proof.
  destruct (isConfigured key) eqn:K.
  - destruct (generateAIResponse_cases key persona prompt w K)
      as [H | [[H _] | (l & lb & data & _ & H)]]; rewrite H; discriminate.
  - rewrite (generateAIResponse_unconfigured _ _ _ _ K). discriminate.
Qed.

(** ** The text that is returned *)

Lemma generated_content data s :
  generated data = Some s ->
  exists content,
    expectedContent data = Some (VString content)
    /\ content <> []
    /\ s = trim (stripControlTokens content).
Proof.
  unfold generated.
  destruct (expectedContent data) as [[ | | ? | ? | [|c r] | ? | ?]|];
    try discriminate.
  intros [= <-]. exists (c :: r). repeat split. discriminate.
Qed.

(** ** The timer of [fetchWithTimeout] *)

Lemma await_world {A} sig (settles : option (N * Completion A)) w :
  exits (fst (await sig settles w)) = true ->
  exists t, snd (await sig settles w) = advance t w.
Proof.
  unfold await.
  destruct settles as [[t r]|];
    destruct (match sig with Some c => abortTime w c | None => None end)
      as [d|];
    try destruct (t <? d); simpl; intros X; try discriminate; eauto.
Qed.

Lemma armed_fire_le now ts :
  (length (filter isArmed (map (fire now) ts))
   <= length (filter isArmed ts))%nat.
Proof.
  induction ts as [|t ts IH]; simpl; [lia|].
  destruct (isArmed (fire now t)) eqn:E.
  - rewrite (isArmed_fire now t E). simpl. lia.
  - destruct (isArmed t); simpl; lia.
Qed.

(** The three ways out of [fetchWithTimeout]: the response arrives and
    the timer is cleared; [fetch] fails and the timer is cleared; the timer
    runs, the request is aborted, and clearing the timer changes nothing. *)
Example fetchWithTimeout_exit_paths :
  let run net :=
    AiService.fetchWithTimeout AiService.HF_ROUTER_URL
      (requestInit sampleKey samplePersona samplePrompt) None
      (startWorld 0 net) in
  (fst (run (Responds 1200 BodyStalled))
   = Normal (mkResponse 1200 BodyStalled (Some 0%nat))
   /\ timers (snd (run (Responds 1200 BodyStalled)))
      = [mkTimer 40000 0%nat Cleared])
  /\ (fst (run (Unreachable 25)) = Throw NetworkError
      /\ timers (snd (run (Unreachable 25))) = [mkTimer 40000 0%nat Cleared])
  /\ (fst (run Silent) = Throw AbortError
      /\ timers (snd (run Silent)) = [mkTimer 40000 0%nat Fired]
      /\ clock (snd (run Silent)) = 40000).
Proof. vm_compute. repeat split. Qed.

(** ** The deadline and the body *)

(** The true part of C3: without headers before the deadline the request
    is aborted at the deadline and the call returns [null] then. *)
Lemma generateAIResponse_deadline key persona prompt w :
  isConfigured key = true -> wellFormed w = true ->
  match network w with
  | Silent => True
  | Unreachable l | Responds l _ => 40000 <= l
  end ->
  fst (AiService.generateAIResponse key persona prompt w) = Normal None
  /\ clock (snd (AiService.generateAIResponse key persona prompt w))
     = clock w + 40000.
Proof.
  intros K W H. rewrite generateAIResponse_shape, K.
  change (negb true) with false. cbv iota. rewrite tryCatch_bind.
  rewrite (fetchWithTimeout_deadline _ _ None w W H).
  split; [reflexivity|]. simpl. unfold defaultTimeout. lia.
Qed.

(** The same departure with a body that ends late: the text is returned
    when the body ends, however long after the deadline. *)
Lemma generateAIResponse_slow_body key persona prompt w l lb data :
  isConfigured key = true -> wellFormed w = true -> l < 40000 ->
  network w = Responds l (BodyJSON lb data) ->
  fst (AiService.generateAIResponse key persona prompt w)
  = Normal (generated data)
  /\ clock (snd (AiService.generateAIResponse key persona prompt w))
     = clock w + l + lb.
Proof.
  intros K W L Net.
  rewrite (generateAIResponse_in_time key persona prompt w l _ K W Net L).
  destruct (parsed_generated data) as [NP G].
  destruct (parsed data) as [v| e |]; simpl in *.
  - rewrite G. split; [reflexivity | lia].
  - rewrite <- G. split; [reflexivity | lia].
  - contradiction.
Qed.

Example slow_body_returns_after_the_deadline :
  AiService.generateAIResponse sampleKey samplePersona samplePrompt
    (startWorld 0
       (Responds 1200
          (BodyJSON 600000 (completion (VString (lit "Be calm."))))))
  = (Normal (Some (lit "Be calm.")),
     mkWorld 601200 [mkTimer 40000 0%nat Cleared] [false]
             [(AiService.HF_ROUTER_URL,
               withSignal (requestInit sampleKey samplePersona samplePrompt)
                          0%nat)]
             []
             (Responds 1200
                (BodyJSON 600000 (completion (VString (lit "Be calm.")))))).
Proof. vm_compute. reflexivity. Qed.

(** ** The text of the request body *)

Lemma unhexDigit_hexDigit d : d < 16 -> unhexDigit (hexDigit d) = Some d.
Proof.
  intros D. unfold hexDigit, unhexDigit.
  destruct (N.ltb_spec d 10).
  - replace ((48 <=? 48 + d) && (48 + d <=? 57)) with true.
    + f_equal. lia.
    + symmetry. apply andb_true_iff. split; apply N.leb_le; lia.
  - replace ((48 <=? 87 + d) && (87 + d <=? 57)) with false.
    + replace ((97 <=? 87 + d) && (87 + d <=? 102)) with true.
      * f_equal. lia.
      * symmetry. apply andb_true_iff. split; apply N.leb_le; lia.
    + symmetry. apply andb_false_iff. right. apply N.leb_gt. lia.
Qed.

Lemma hex_digits c :
  c < 65536 ->
  ((c / 4096 mod 16 * 16 + c / 256 mod 16) * 16 + c / 16 mod 16) * 16
  + c mod 16 = c.
Proof.
  intros C.
  Zify.zify. PreOmega.Z.to_euclidean_division_equations. lia.
Qed.

Lemma readUnits_unicodeEscape c t :
  c < 65536 -> c <> 34 -> c <> 92 ->
  readUnits (unicodeEscape c ++ t) = consUnit c (readUnits t).
Proof.
  intros C _ _. unfold unicodeEscape.
  change (readUnits ([92; 117; hexDigit (c / 4096 mod 16);
                      hexDigit (c / 256 mod 16); hexDigit (c / 16 mod 16);
                      hexDigit (c mod 16)] ++ t))
    with (match unhexDigit (hexDigit (c / 4096 mod 16)),
                unhexDigit (hexDigit (c / 256 mod 16)),
                unhexDigit (hexDigit (c / 16 mod 16)),
                unhexDigit (hexDigit (c mod 16)) with
          | Some d1, Some d2, Some d3, Some d4 =>
              consUnit (((d1 * 16 + d2) * 16 + d3) * 16 + d4) (readUnits t)
          | _, _, _, _ => None
          end).
  rewrite !unhexDigit_hexDigit by (apply N.mod_lt; discriminate).
  rewrite (hex_digits c C). reflexivity.
Qed.

Lemma readUnits_plain c t :
  c <> 34 -> c <> 92 -> readUnits (c :: t) = consUnit c (readUnits t).
Proof.
  intros A B. simpl.
  destruct (N.eqb_spec c 34) as [E|_]; [contradiction|].
  destruct (N.eqb_spec c 92) as [E|_]; [contradiction|].
  reflexivity.
Qed.

Lemma readUnits_quoteUnit c t :
  readUnits (quoteUnit c ++ t) = consUnit c (readUnits t).
Proof.
  unfold quoteUnit.
  destruct (N.eqb_spec c 8) as [->|N8]; [reflexivity|].
  destruct (N.eqb_spec c 9) as [->|N9]; [reflexivity|].
  destruct (N.eqb_spec c 10) as [->|N10]; [reflexivity|].
  destruct (N.eqb_spec c 12) as [->|N12]; [reflexivity|].
  destruct (N.eqb_spec c 13) as [->|N13]; [reflexivity|].
  destruct (N.eqb_spec c 34) as [->|N34]; [reflexivity|].
  destruct (N.eqb_spec c 92) as [->|N92]; [reflexivity|].
  destruct ((c <? 32) || isLeadingSurrogate c || isTrailingSurrogate c)
    eqn:E.
  - apply readUnits_unicodeEscape; trivial.
    unfold isLeadingSurrogate, isTrailingSurrogate in E.
    apply orb_true_iff in E. destruct E as [E|E].
    + apply orb_true_iff in E. destruct E as [E|E].
      * apply N.ltb_lt in E. lia.
      * apply andb_true_iff in E. destruct E as [_ E].
        apply N.leb_le in E. lia.
    + apply andb_true_iff in E. destruct E as [_ E].
      apply N.leb_le in E. lia.
  - apply readUnits_plain; trivial.
Qed.

Lemma isLeadingSurrogate_plain c :
  isLeadingSurrogate c = true -> c <> 34 /\ c <> 92.
Proof.
  unfold isLeadingSurrogate. intros E.
  apply andb_true_iff in E. destruct E as [E _].
  apply N.leb_le in E. lia.
Qed.

Lemma isTrailingSurrogate_plain c :
  isTrailingSurrogate c = true -> c <> 34 /\ c <> 92.
Proof.
  unfold isTrailingSurrogate. intros E.
  apply andb_true_iff in E. destruct E as [E _].
  apply N.leb_le in E. lia.
Qed.

(** A quoted string is read back as it was, whatever follows its closing
    quote. *)
Lemma readUnits_quoteUnits s :
  (forall rest, readUnits (quoteUnits s ++ 34 :: rest) = Some (s, rest))
  /\ forall c rest,
       readUnits (quoteUnits (c :: s) ++ 34 :: rest) = Some (c :: s, rest).
Proof.
  induction s as [|d s [IH1 IH2]].
  - split.
    + reflexivity.
    + intros c rest. simpl quoteUnits. rewrite readUnits_quoteUnit.
      reflexivity.
  - split.
    + apply IH2.
    + intros c rest.
      change (quoteUnits (c :: d :: s))
        with (if isLeadingSurrogate c && isTrailingSurrogate d
              then c :: d :: quoteUnits s
              else quoteUnit c ++ quoteUnits (d :: s)).
      destruct (isLeadingSurrogate c && isTrailingSurrogate d) eqn:E.
      * apply andb_true_iff in E. destruct E as [Ec Ed].
        destruct (isLeadingSurrogate_plain c Ec) as [C1 C2].
        destruct (isTrailingSurrogate_plain d Ed) as [D1 D2].
        change ((c :: d :: quoteUnits s) ++ 34 :: rest)
          with (c :: d :: quoteUnits s ++ 34 :: rest).
        rewrite (readUnits_plain c _ C1 C2), (readUnits_plain d _ D1 D2).
        rewrite IH1. reflexivity.
      * rewrite <- app_assoc, readUnits_quoteUnit, IH2. reflexivity.
Qed.

Lemma quoteUnits_inj s1 s2 rest1 rest2 :
  quoteUnits s1 ++ 34 :: rest1 = quoteUnits s2 ++ 34 :: rest2 ->
  s1 = s2 /\ rest1 = rest2.
Proof.
  intros E. apply (f_equal readUnits) in E.
  rewrite (proj1 (readUnits_quoteUnits s1)) in E.
  rewrite (proj1 (readUnits_quoteUnits s2)) in E.
  injection E as -> ->. split; reflexivity.
Qed.

(** Two body texts of the service that are equal hold the same persona
    text and the same prompt. *)
Lemma bodyText_inj persona1 persona2 prompt1 prompt2 (tail1 tail2 : jsstring) :
  Some (bodyHead ++ quoteUnits persona1
          ++ 34 :: bodyMiddle ++ quoteUnits prompt1 ++ 34 :: tail1)
  = Some (bodyHead ++ quoteUnits persona2
            ++ 34 :: bodyMiddle ++ quoteUnits prompt2 ++ 34 :: tail2) ->
  persona1 = persona2 /\ prompt1 = prompt2.
Proof.
  generalize bodyHead, bodyMiddle. intros head middle E.
  injection E as E.
  apply app_inv_head in E.
  apply quoteUnits_inj in E. destruct E as [P E].
  apply app_inv_head in E.
  apply quoteUnits_inj in E. destruct E as [Q _].
  split; assumption.
Qed.

Lemma bodyText_requestInit nts key persona prompt :
  bodyText nts (requestInit key persona prompt)
  = Some (bodyHead ++ quoteUnits persona
            ++ 34 :: bodyMiddle ++ quoteUnits prompt ++ 34 :: bodyTail nts).
Proof.
  unfold bodyText, requestInit, bodyValue, bodyHead, bodyMiddle, bodyTail.
  repeat progress (cbn; rewrite <- ?app_assoc).
  reflexivity.
Qed.

(** ** The persona text *)

Lemma await_blind {A} sig (settles : option (N * Completion A)) :
  requestBlind (await sig settles).
Proof.
  intros rs w. unfold await.
  change (match sig with
          | Some c => abortTime (setRequests rs w) c
          | None => None
          end)
    with (match sig with Some c => abortTime w c | None => None end).
  destruct settles as [[t r]|];
    destruct (match sig with Some c => abortTime w c | None => None end)
      as [d|];
    try destruct (t <? d); reflexivity.
Qed.

Lemma json_blind res : requestBlind (json res).
Proof. intros rs w. apply (await_blind (signal_of res)). Qed.

Lemma afterJson_blind data : requestBlind (afterJson data).
Proof. intros rs w. rewrite !afterJson_parsed. reflexivity. Qed.

Lemma onError_blind e : requestBlind (onError e).
Proof. intros rs w. reflexivity. Qed.

Lemma bind_blind {A B} (m : Eff A) (k : A -> Eff B) :
  requestBlind m -> (forall a, requestBlind (k a)) -> requestBlind (bind m k).
Proof.
  intros Hm Hk rs w. unfold bind. rewrite Hm.
  destruct (m w) as [[a| e |] w']; simpl; [apply Hk | reflexivity..].
Qed.

Lemma tryCatch_blind {A} (m : Eff A) h :
  requestBlind m -> (forall e, requestBlind (h e)) ->
  requestBlind (tryCatch m h).
Proof.
  intros Hm Hh rs w. unfold tryCatch. rewrite Hm.
  destruct (m w) as [[a| e |] w']; simpl;
    [reflexivity | apply Hh | reflexivity].
Qed.

Lemma response_blind res :
  requestBlind (tryCatch (data <- json res ;; afterJson data)%eff onError).
Proof.
  apply tryCatch_blind; [|apply onError_blind].
  apply bind_blind; [apply json_blind | apply afterJson_blind].
Qed.

(** The persona text reaches the log of requests and nothing else. *)
Lemma generateAIResponse_persona key personaA personaB prompt w :
  isConfigured key = true ->
  AiService.generateAIResponse key personaB prompt w =
  (fst (AiService.generateAIResponse key personaA prompt w),
   setRequests
     (requests w
      ++ [(AiService.HF_ROUTER_URL,
           withSignal (requestInit key personaB prompt) (length (aborted w)))])
     (snd (AiService.generateAIResponse key personaA prompt w))).
Proof.
  intros K. rewrite !generateAIResponse_shape, K.
  change (negb true) with false. cbv iota. rewrite !tryCatch_bind.
  rewrite !fetchWithTimeout_shape.
  set (rsB := requests w ++ [_]).
  change (inFlight (defaultTimeout None) AiService.HF_ROUTER_URL
            (requestInit key personaB prompt) w)
    with (setRequests rsB
            (inFlight (defaultTimeout None) AiService.HF_ROUTER_URL
               (requestInit key personaA prompt) w)).
  rewrite await_blind.
  destruct (await _ _ (inFlight _ _ (requestInit key personaA prompt) w))
    as [[res| e |] w']; simpl fst; simpl snd; cbv iota.
  - change (cleared (length (timers w)) (setRequests rsB w'))
      with (setRequests rsB (cleared (length (timers w)) w')).
    apply response_blind.
  - reflexivity.
  - reflexivity.
Qed.

(** The part of C1 that holds: when the backend fails to connect, stays
    silent, or sends a body that ends, JSON of any shape or not,
    [generateAIResponse] returns a value, a string or [null]. *)
Lemma generateAIResponse_returns_when_settling key persona prompt w :
  settling (network w) = true ->
  exists v : option jsstring,
    fst (AiService.generateAIResponse key persona prompt w) = Normal v.
Proof.
  intros S. destruct (isConfigured key) eqn:K.
  - destruct (generateAIResponse_cases key persona prompt w K)
      as [H | [[_ [l Net]] | (l & lb & data & _ & H)]].
    + exists None. exact H.
    + rewrite Net in S. discriminate.
    + exists (generated data). exact H.
  - exists None. rewrite (generateAIResponse_unconfigured _ _ _ _ K).
    reflexivity.
Qed.

(** * The claims *)

(** C1, where the code departs from it. Errors of a request are absorbed
    and nothing is thrown, but not every outcome of the upstream call makes
    [generateAIResponse] return: when the headers of the response arrive
    before the deadline and its body never ends, the call stays pending
    and returns neither a string nor [null]. *)
Theorem C1_stalled_body_call_does_not_return key persona prompt w l :
  isConfigured key = true -> wellFormed w = true -> l < 40000 ->
  network w = Responds l BodyStalled ->
  fst (AiService.generateAIResponse key persona prompt w) = Pending
  /\ forall v : option jsstring,
       fst (AiService.generateAIResponse key persona prompt w) <> Normal v.
Proof.
  intros K W L Net.
  rewrite (generateAIResponse_in_time key persona prompt w l _ K W Net L).
  split; [reflexivity | discriminate].
Qed.

(** The theorem of C1 at headers after 1200 ms and no body. *)
Lemma C1_witness :
  fst (AiService.generateAIResponse sampleKey samplePersona samplePrompt
         (startWorld 0 (Responds 1200 BodyStalled))) = Pending
  /\ forall v : option jsstring,
       fst (AiService.generateAIResponse sampleKey samplePersona samplePrompt
              (startWorld 0 (Responds 1200 BodyStalled))) <> Normal v.
Proof.
  exact (C1_stalled_body_call_does_not_return sampleKey samplePersona
           samplePrompt (startWorld 0 (Responds 1200 BodyStalled)) 1200
           eq_refl eq_refl eq_refl eq_refl).
Defined.

(** C2, as stated, fails: a call that times out, a call that meets a
    network error and a call that gets a payload without content return
    the same value, so nothing computed from the returned value tells the
    three failures apart. *)
Lemma C2_counterexample :
  ~ exists classify : Completion (option jsstring) -> Failure,
      let result u :=
        fst (AiService.generateAIResponse sampleKey samplePersona samplePrompt
               (startWorld 0 u)) in
      classify (result Silent) = Timeout
      /\ classify (result (Unreachable 25)) = UpstreamError
      /\ classify (result (Responds 1200 (BodyJSON 300 (VObject []))))
         = EmptyResponse.
Proof.
  intros (classify & T & U & _).
  change (classify (Normal None) = Timeout) in T.
  change (classify (Normal None) = UpstreamError) in U.
  rewrite T in U. discriminate.
Qed.

(** C2, as the code has it. Every failed call that returns, returns
    [null]: a timeout, an upstream error and an empty response all come
    back as the same value. *)
Theorem C2_failures_return_null key persona prompt w f :
  failureOf 40000 (network w) = Some f ->
  exits (fst (AiService.generateAIResponse key persona prompt w)) = true ->
  fst (AiService.generateAIResponse key persona prompt w) = Normal None.
Proof.
  intros F X. destruct (isConfigured key) eqn:K;
    [|rewrite (generateAIResponse_unconfigured _ _ _ _ K); reflexivity].
  destruct (generateAIResponse_cases key persona prompt w K)
    as [H | [[H _] | (l & lb & data & Net & H)]].
  - exact H.
  - rewrite H in X. discriminate.
  - rewrite Net in F. simpl in F. destruct (l <? 40000) eqn:L.
    + rewrite H. unfold generated.
      destruct (expectedContent data) as [[ | | ? | ? | [|? ?] | ? | ?]|];
        try reflexivity; discriminate.
    + apply generateAIResponse_late. rewrite Net. apply N.ltb_ge, L.
Qed.

(** The theorem of C2 at a call that times out. *)
Lemma C2_witness :
  failureOf 40000 (network (startWorld 0 Silent)) = Some Timeout
  /\ fst (AiService.generateAIResponse sampleKey samplePersona samplePrompt
            (startWorld 0 Silent)) = Normal None.
Proof.
  split; [reflexivity|].
  apply (C2_failures_return_null sampleKey samplePersona samplePrompt
           (startWorld 0 Silent) Timeout); reflexivity.
Defined.

(** C3, where the code departs from it. When the headers of the response
    arrive before the deadline and its body never ends, the call never
    returns: [fetchWithTimeout] has cleared the timer on the arrival of the
    headers, so the request is not aborted at the deadline, nor ever. *)
Theorem C3_stalled_body_never_aborted key persona prompt w l :
  isConfigured key = true -> wellFormed w = true -> l < 40000 ->
  network w = Responds l BodyStalled ->
  exists w',
    AiService.generateAIResponse key persona prompt w = (Pending, w')
    /\ clock w' = clock w + l
    /\ nth (length (aborted w)) (aborted w') false = false
    /\ nth_error (timers w') (length (timers w))
       = Some (mkTimer (clock w + 40000) (length (aborted w)) Cleared)
    /\ requests w'
       = requests w
         ++ [(AiService.HF_ROUTER_URL,
              withSignal (requestInit key persona prompt)
                         (length (aborted w)))].
Proof.
  intros K W L Net.
  rewrite (generateAIResponse_in_time key persona prompt w l _ K W Net L).
  eexists. split; [reflexivity|].
  split; [simpl; lia|].
  split; [apply not_aborted_after; [exact W | lia | lia]|].
  split.
  - rewrite timers_after.
    rewrite nth_error_app2; rewrite length_map; [|lia].
    rewrite Nat.sub_diag. simpl. unfold fire.
    rewrite not_due_in_time by lia. reflexivity.
  - reflexivity.
Qed.

(** The theorem of C3 at headers after 1200 ms and no body. *)
Lemma C3_witness :
  exists w',
    AiService.generateAIResponse sampleKey samplePersona samplePrompt
      (startWorld 0 (Responds 1200 BodyStalled)) = (Pending, w')
    /\ clock w' = 1200
    /\ nth 0%nat (aborted w') false = false
    /\ nth_error (timers w') 0%nat = Some (mkTimer 40000 0%nat Cleared)
    /\ requests w'
       = [(AiService.HF_ROUTER_URL,
           withSignal (requestInit sampleKey samplePersona samplePrompt)
                      0%nat)].
Proof.
  exact (C3_stalled_body_never_aborted sampleKey samplePersona samplePrompt
           (startWorld 0 (Responds 1200 BodyStalled)) 1200
           eq_refl eq_refl eq_refl eq_refl).
Defined.

(** C4. On every way out of [fetchWithTimeout] (the response is there,
    [fetch] has thrown, the timer has aborted the request) the timer of the
    call is not pending any more: it has been cleared or it has run, and no
    timer is armed that was not armed before the call. *)
Theorem C4_timer_released_on_every_exit url options timeout w :
  exists r w' t,
    AiService.fetchWithTimeout url options timeout w = (r, w')
    /\ exits r = true
    /\ nth_error (timers w') (length (timers w)) = Some t
    /\ isArmed t = false
    /\ (armedCount w' <= armedCount w)%nat.
Proof.
  pose proof (fetchWithTimeout_exits url options timeout w) as X.
  rewrite fetchWithTimeout_shape in *.
  assert (XA : exits (fst (await (Some (length (aborted w)))
                             (headersOf (length (aborted w)) w)
                             (inFlight (defaultTimeout timeout) url options w)))
               = true).
  { destruct (await _ _ _) as [[res| e |] w']; [reflexivity | reflexivity |].
    exact X. }
  destruct (await_world _ _ _ XA) as [x Wx].
  destruct (await _ _ _) as [r w'] eqn:E. simpl in Wx, XA. subst w'.
  exists r, (cleared (length (timers w))
               (advance x (inFlight (defaultTimeout timeout) url options w))),
         (clearOne (fire (N.max (clock w) x)
                     (mkTimer (clock w + defaultTimeout timeout)
                              (length (aborted w)) Armed))).
  split; [destruct r; [reflexivity | reflexivity | discriminate]|].
  split; [exact XA|].
  unfold armedCount. rewrite timers_after.
  split; [|split].
  - rewrite nth_error_app2; rewrite length_map; [|lia].
    rewrite Nat.sub_diag. reflexivity.
  - apply isArmed_clearOne.
  - rewrite filter_app. simpl. rewrite isArmed_clearOne.
    rewrite app_nil_r. apply armed_fire_le.
Qed.

(** C5. A response whose parsed payload lacks the expected fields (no
    [choices], no first choice, no [message] or no [content]) does not make
    [generateAIResponse] throw: the call returns [null], its failure
    result. *)
Theorem C5_missing_fields_return_null key persona prompt w l lb data :
  network w = Responds l (BodyJSON lb data) ->
  expectedContent data = None ->
  fst (AiService.generateAIResponse key persona prompt w) = Normal None.
Proof.
  intros Net E. destruct (isConfigured key) eqn:K;
    [|rewrite (generateAIResponse_unconfigured _ _ _ _ K); reflexivity].
  destruct (generateAIResponse_cases key persona prompt w K)
    as [H | [[_ [l' Net']] | (l' & lb' & data' & Net' & H)]].
  - exact H.
  - rewrite Net in Net'. discriminate.
  - rewrite Net in Net'. injection Net' as _ _ <-.
    rewrite H. unfold generated. rewrite E. reflexivity.
Qed.

(** The theorem of C5 at the payload [{}]. *)
Lemma C5_witness :
  network (startWorld 0 (Responds 1200 (BodyJSON 300 (VObject []))))
  = Responds 1200 (BodyJSON 300 (VObject []))
  /\ expectedContent (VObject []) = None
  /\ fst (AiService.generateAIResponse sampleKey samplePersona samplePrompt
            (startWorld 0 (Responds 1200 (BodyJSON 300 (VObject [])))))
     = Normal None.
Proof.
  split; [reflexivity|]. split; [reflexivity|].
  apply (C5_missing_fields_return_null sampleKey samplePersona samplePrompt
           (startWorld 0 (Responds 1200 (BodyJSON 300 (VObject []))))
           1200 300 (VObject [])); reflexivity.
Defined.

(** C6, as stated, fails: the tokens are removed in one pass, and what
    stands around a removed token may join into a token. The content
    [<<|x|>|y|>] comes back as [<|y|>]. *)
Lemma C6_counterexample :
  fst (AiService.generateAIResponse sampleKey samplePersona samplePrompt
         (startWorld 0
            (Responds 1200
               (BodyJSON 300 (completion (VString (lit "<<|x|>|y|>")))))))
  = Normal (Some (lit "<|y|>"))
  /\ containsControlToken (lit "<|y|>").
Proof.
  split.
  - vm_compute. reflexivity.
  - exists [], (lit "y"), []. reflexivity.
Qed.

(** C6, as the code has it. For every successful call the returned string
    has no whitespace at either end and is the content of the payload
    after one left-to-right pass that deletes every match of
    [<\|.*?\|>], trimmed. When the content is made of control tokens set
    between stretches of text in which [|] does not occur, the returned
    string is that text, trimmed, and contains no control token. *)
Theorem C6_tokens_stripped_in_one_pass key persona prompt w s :
  fst (AiService.generateAIResponse key persona prompt w) = Normal (Some s) ->
  trimmed s = true
  /\ exists l lb data content,
       network w = Responds l (BodyJSON lb data)
       /\ expectedContent data = Some (VString content)
       /\ s = trim (stripControlTokens content)
       /\ forall ps,
            content = renderAll ps -> forallb delimited ps = true ->
            s = trim (textsOf ps) /\ ~ containsControlToken s.
Proof.
  intros R. destruct (isConfigured key) eqn:K;
    [|rewrite (generateAIResponse_unconfigured _ _ _ _ K) in R;
      discriminate].
  destruct (generateAIResponse_cases key persona prompt w K)
    as [H | [[H _] | (l & lb & data & Net & H)]];
    rewrite H in R; try discriminate.
  injection R as G.
  destruct (generated_content data s G) as (content & E & _ & ->).
  split; [apply trim_trimmed|].
  exists l, lb, data, content.
  split; [exact Net|]. split; [exact E|]. split; [reflexivity|].
  intros ps -> D. rewrite (stripControlTokens_pieces ps D).
  split; [reflexivity|].
  apply pipeFree_no_token, forallb_trim, pipeFree_textsOf, D.
Qed.

(** The theorem of C6 at a reply that ends in a token and is padded with
    spaces. *)
Lemma C6_witness :
  fst (AiService.generateAIResponse sampleKey samplePersona samplePrompt
         (startWorld 0
            (Responds 1200
               (BodyJSON 300
                  (completion (VString (lit "  Be calm.<|eot_id|> ")))))))
  = Normal (Some (lit "Be calm."))
  /\ trimmed (lit "Be calm.") = true
  /\ ~ containsControlToken (lit "Be calm.").
Proof.
  assert (R : fst (AiService.generateAIResponse sampleKey samplePersona
                     samplePrompt
                     (startWorld 0
                        (Responds 1200
                           (BodyJSON 300
                              (completion
                                 (VString (lit "  Be calm.<|eot_id|> ")))))))
              = Normal (Some (lit "Be calm."))).
  { vm_compute. reflexivity. }
  split; [exact R|].
  destruct (C6_tokens_stripped_in_one_pass _ _ _ _ _ R)
    as (T & l & lb & data & content & Net & E & _ & P).
  split; [exact T|].
  injection Net as _ _ <-.
  injection E as <-.
  apply (P [Text (lit "  Be calm."); Token (lit "eot_id"); Text (lit " ")]);
    reflexivity.
Defined.

(** C7. The system message of the request is fixed: in the body sent for
    any two prompts it is the same persona text, whatever the prompt, the
    key and the state of the process are, and equal prompts give equal
    bodies. *)
Theorem C7_system_message_fixed key1 key2 persona prompt1 prompt2 w1 w2 :
  isConfigured key1 = true -> isConfigured key2 = true ->
  exists init1 init2,
    requests (snd (AiService.generateAIResponse key1 persona prompt1 w1))
    = requests w1 ++ [(AiService.HF_ROUTER_URL, init1)]
    /\ requests (snd (AiService.generateAIResponse key2 persona prompt2 w2))
       = requests w2 ++ [(AiService.HF_ROUTER_URL, init2)]
    /\ systemContent (body init1) = Some (VString persona)
    /\ systemContent (body init2) = Some (VString persona)
    /\ (prompt1 = prompt2 -> body init1 = body init2).
Proof.
  intros K1 K2.
  exists (withSignal (requestInit key1 persona prompt1) (length (aborted w1))),
         (withSignal (requestInit key2 persona prompt2) (length (aborted w2))).
  split; [apply generateAIResponse_requests, K1|].
  split; [apply generateAIResponse_requests, K2|].
  split; [reflexivity|]. split; [reflexivity|].
  intros ->. reflexivity.
Qed.

(** The theorem of C7 at two calls with different keys, prompts and
    backends. *)
Lemma C7_witness :
  exists init1 init2,
    requests (snd (AiService.generateAIResponse sampleKey samplePersona
                     samplePrompt (startWorld 0 Silent)))
    = [(AiService.HF_ROUTER_URL, init1)]
    /\ requests (snd (AiService.generateAIResponse (Some (lit "hf_other"))
                        samplePersona (lit "What is virtue?")
                        (startWorld 7 (Unreachable 25))))
       = [(AiService.HF_ROUTER_URL, init2)]
    /\ systemContent (body init1) = Some (VString samplePersona)
    /\ systemContent (body init2) = Some (VString samplePersona)
    /\ (samplePrompt = lit "What is virtue?" -> body init1 = body init2).
Proof.
  exact (C7_system_message_fixed sampleKey (Some (lit "hf_other"))
           samplePersona samplePrompt (lit "What is virtue?")
           (startWorld 0 Silent) (startWorld 7 (Unreachable 25))
           eq_refl eq_refl).
Defined.

(** C8. Without [HUGGINGFACE_API_KEY] in the environment when the module
    loads, [generateAIResponse] returns [null] at once for every prompt: no
    request goes out, no timer is set, no time passes. *)
Theorem C8_no_key_no_request persona prompt w :
  AiService.generateAIResponse None persona prompt w = (Normal None, w).
Proof. reflexivity. Qed.

(** C9. A successful return need not be a non-empty string. A content
    that is not empty and consists of control tokens [<|...|>] and
    whitespace only comes back as the empty string, a success; a content
    that is the empty string counts as absent and the call returns
    [null]. *)
Theorem C9_empty_success_and_empty_content key persona prompt w l lb data
        content :
  isConfigured key = true -> wellFormed w = true -> l < 40000 ->
  network w = Responds l (BodyJSON lb data) ->
  expectedContent data = Some (VString content) ->
  (forall ps,
     content = renderAll ps -> content <> [] ->
     forallb tokenOrBlank ps = true ->
     fst (AiService.generateAIResponse key persona prompt w)
     = Normal (Some []))
  /\ (content = [] ->
      fst (AiService.generateAIResponse key persona prompt w) = Normal None).
Proof.
  intros K W L Net E.
  assert (R : fst (AiService.generateAIResponse key persona prompt w)
              = Normal (generated data)).
  { rewrite (generateAIResponse_in_time key persona prompt w l _ K W Net L).
    destruct (parsed_generated data) as [NP G].
    destruct (parsed data) as [v| e |]; simpl in *;
      [rewrite G; reflexivity | rewrite <- G; reflexivity | contradiction]. }
  rewrite R. unfold generated. rewrite E. split.
  - intros ps -> NE B. destruct (renderAll ps) as [|c r] eqn:P;
      [contradiction|].
    rewrite <- P.
    rewrite (stripControlTokens_pieces ps (tokenOrBlank_delimited ps B)).
    rewrite (trim_blank _ (blank_textsOf ps B)). reflexivity.
  - intros ->. reflexivity.
Qed.

(** The theorem of C9 at a content of one token and a space, and at the
    empty content. *)
Lemma C9_witness :
  fst (AiService.generateAIResponse sampleKey samplePersona samplePrompt
         (startWorld 0
            (Responds 1200
               (BodyJSON 300 (completion (VString (lit "<|eot_id|> ")))))))
  = Normal (Some [])
  /\ fst (AiService.generateAIResponse sampleKey samplePersona samplePrompt
            (startWorld 0
               (Responds 1200 (BodyJSON 300 (completion (VString []))))))
     = Normal None.
Proof.
  split.
  - apply (proj1 (C9_empty_success_and_empty_content
                    sampleKey samplePersona samplePrompt
                    (startWorld 0
                       (Responds 1200
                          (BodyJSON 300
                             (completion (VString (lit "<|eot_id|> "))))))
                    1200 300 (completion (VString (lit "<|eot_id|> ")))
                    (lit "<|eot_id|> ")
                    eq_refl eq_refl eq_refl eq_refl eq_refl)
                 [Token (lit "eot_id"); Text (lit " ")]).
    + reflexivity.
    + discriminate.
    + reflexivity.
  - apply (proj2 (C9_empty_success_and_empty_content
                    sampleKey samplePersona samplePrompt
                    (startWorld 0
                       (Responds 1200
                          (BodyJSON 300 (completion (VString [])))))
                    1200 300 (completion (VString [])) []
                    eq_refl eq_refl eq_refl eq_refl eq_refl)).
    reflexivity.
Defined.

(** C10. The two texts of the service behave alike up to the text of the
    system message: for every key, prompt, backend and state they end the
    same way with the same result, leave the same clock, timers, signals
    and console, and send requests that agree in URL, method, headers,
    signal and body (model, user message, [max_tokens], [temperature],
    [top_p]) but for the content of the system message. *)
Theorem C10_variants_agree_up_to_persona key personaA personaB prompt w :
  let a := AiService.generateAIResponse key personaA prompt w in
  let b := Part001.generateAIResponse key personaB prompt w in
  fst a = fst b
  /\ clock (snd a) = clock (snd b)
  /\ timers (snd a) = timers (snd b)
  /\ aborted (snd a) = aborted (snd b)
  /\ console (snd a) = console (snd b)
  /\ exists sentA sentB,
       requests (snd a) = requests w ++ sentA
       /\ requests (snd b) = requests w ++ sentB
       /\ Forall2 (sameUpToSystemContent personaB) sentA sentB.
Proof.
  change (Part001.generateAIResponse key personaB prompt w)
    with (AiService.generateAIResponse key personaB prompt w).
  destruct (isConfigured key) eqn:K.
  - rewrite (generateAIResponse_persona key personaA personaB prompt w K).
    cbv zeta. simpl fst. simpl snd.
    repeat (split; [reflexivity|]).
    exists [(AiService.HF_ROUTER_URL,
             withSignal (requestInit key personaA prompt)
                        (length (aborted w)))],
           [(AiService.HF_ROUTER_URL,
             withSignal (requestInit key personaB prompt)
                        (length (aborted w)))].
    split; [apply generateAIResponse_requests, K|].
    split; [reflexivity|].
    constructor; [|constructor].
    repeat split.
  - rewrite !(generateAIResponse_unconfigured _ _ _ _ K). cbv zeta.
    repeat (split; [reflexivity|]).
    exists [], []. rewrite app_nil_r. repeat split. constructor.
Qed.

(** * Further properties of the service *)

(** ** The time [fetchWithTimeout] takes *)

Lemma await_console {A} sig (settles : option (N * Completion A)) w :
  console (snd (await sig settles w)) = console w.
Proof.
  unfold await.
  destruct settles as [[t r]|];
    destruct (match sig with Some c => abortTime w c | None => None end);
    try destruct (t <? _); reflexivity.
Qed.


Lemma nth_abortTargets_due due flags : forall from i,
  (i < length flags)%nat ->
  existsb (fun t => Nat.eqb (target t) (from + i)) due = true ->
  nth i (abortTargets due from flags) false = true.
Proof.
  induction flags as [|b flags IH]; intros from i L H; simpl in *; [lia|].
  destruct i as [|i].
  - rewrite Nat.add_0_r in H. rewrite H. apply orb_true_r.
  - apply IH; [lia|]. rewrite Nat.add_succ_r in H. exact H.
Qed.

(** X2. Under a timeout that [setTimeout] takes as it is given (1 ms to
    2147483647 ms, as the 40000 ms of the service), and without headers
    before the deadline, [fetchWithTimeout] throws [AbortError] exactly at
    the deadline: the timer has run and the signal of the request is
    aborted. *)
Theorem X2_fetchWithTimeout_aborts_at_deadline url options timeout w :
  honouredDelay (defaultTimeout timeout) = true ->
  wellFormed w = true ->
  match network w with
  | Silent => True
  | Unreachable l | Responds l _ => defaultTimeout timeout <= l
  end ->
  exists w',
    AiService.fetchWithTimeout url options timeout w = (Throw AbortError, w')
    /\ clock w' = clock w + defaultTimeout timeout
    /\ nth (length (aborted w)) (aborted w') false = true
    /\ nth_error (timers w') (length (timers w))
       = Some (mkTimer (clock w + defaultTimeout timeout)
                       (length (aborted w)) Fired).
Proof.
  intros _ W H.
  rewrite (fetchWithTimeout_deadline url options timeout w W H).
  eexists. split; [reflexivity|].
  assert (D : isDue (N.max (clock w) (clock w + defaultTimeout timeout))
                (mkTimer (clock w + defaultTimeout timeout)
                         (length (aborted w)) Armed) = true).
  { unfold isDue, isArmed. cbn [status deadline andb]. apply N.leb_le. lia. }
  split; [simpl; lia|]. split.
  - unfold cleared, advance, inFlight, clearTimeout. simpl.
    apply nth_abortTargets_due.
    + rewrite length_app. simpl. lia.
    + apply existsb_exists.
      exists (mkTimer (clock w + defaultTimeout timeout)
                      (length (aborted w)) Armed).
      split; [|simpl; apply Nat.eqb_refl].
      apply filter_In. split; [apply in_or_app; right; left; reflexivity|].
      exact D.
  - rewrite timers_after.
    rewrite nth_error_app2; rewrite length_map; [|lia].
    rewrite Nat.sub_diag. simpl. unfold fire. rewrite D. reflexivity.
Qed.

(** The theorem of X2 at a backend that never answers. *)
Lemma X2_witness :
  exists w',
    AiService.fetchWithTimeout AiService.HF_ROUTER_URL
      (requestInit sampleKey samplePersona samplePrompt) (Some 2500)
      (startWorld 100 Silent) = (Throw AbortError, w')
    /\ clock w' = 2600
    /\ nth 0%nat (aborted w') false = true
    /\ nth_error (timers w') 0%nat = Some (mkTimer 2600 0%nat Fired).
Proof.
  exact (X2_fetchWithTimeout_aborts_at_deadline AiService.HF_ROUTER_URL
           (requestInit sampleKey samplePersona samplePrompt) (Some 2500)
           (startWorld 100 Silent) eq_refl eq_refl I).
Defined.

(** X3. Under a timeout that [setTimeout] takes as it is given (1 ms to
    2147483647 ms, as the 40000 ms of the service), and with headers
    before the deadline, [fetchWithTimeout] returns the response when they
    arrive, with the timer cleared and the signal not aborted: nothing is
    left that would stop the reading of the body. *)
Theorem X3_fetchWithTimeout_returns_on_headers url options timeout w l b :
  honouredDelay (defaultTimeout timeout) = true ->
  wellFormed w = true -> network w = Responds l b ->
  l < defaultTimeout timeout ->
  exists w',
    AiService.fetchWithTimeout url options timeout w
    = (Normal (mkResponse (clock w + l) b (Some (length (aborted w)))), w')
    /\ clock w' = clock w + l
    /\ nth (length (aborted w)) (aborted w') false = false
    /\ nth_error (timers w') (length (timers w))
       = Some (mkTimer (clock w + defaultTimeout timeout)
                       (length (aborted w)) Cleared)
    /\ abortTime w' (length (aborted w)) = None.
Proof.
  intros _ W Net L.
  rewrite (fetchWithTimeout_in_time url options timeout w l b W Net L).
  eexists. split; [reflexivity|].
  split; [simpl; lia|].
  split; [apply not_aborted_after; [exact W | lia | lia]|].
  split.
  - rewrite timers_after.
    rewrite nth_error_app2; rewrite length_map; [|lia].
    rewrite Nat.sub_diag. simpl. unfold fire.
    rewrite not_due_in_time by lia. reflexivity.
  - apply abortTime_after; [exact W | lia | lia].
Qed.

(** The theorem of X3 at headers after 1200 ms, under a timeout of 2500 ms. *)
Lemma X3_witness :
  exists w',
    AiService.fetchWithTimeout AiService.HF_ROUTER_URL
      (requestInit sampleKey samplePersona samplePrompt) (Some 2500)
      (startWorld 100 (Responds 1200 (BodyInvalid 5)))
    = (Normal (mkResponse 1300 (BodyInvalid 5) (Some 0%nat)), w')
    /\ clock w' = 1300
    /\ nth 0%nat (aborted w') false = false
    /\ nth_error (timers w') 0%nat = Some (mkTimer 2600 0%nat Cleared)
    /\ abortTime w' 0%nat = None.
Proof.
  exact (X3_fetchWithTimeout_returns_on_headers AiService.HF_ROUTER_URL
           (requestInit sampleKey samplePersona samplePrompt) (Some 2500)
           (startWorld 100 (Responds 1200 (BodyInvalid 5))) 1200
           (BodyInvalid 5) eq_refl eq_refl eq_refl eq_refl).
Defined.

(** X4. [fetchWithTimeout] sends one request, to the URL it is given, with
    the method, the headers and the body of its options; the signal of the
    request is the one of its own controller, whatever signal the options
    carry. *)
Theorem X4_fetchWithTimeout_sends_options_with_own_signal
        url options timeout w :
  requests (snd (AiService.fetchWithTimeout url options timeout w))
  = requests w
    ++ [(url, mkInit (method options) (headers options) (body options)
                     (Some (length (aborted w))))].
Proof. exact (fetchWithTimeout_requests url options timeout w). Qed.

(** ** One call after another *)

Lemma length_abortTargets due flags :
  forall from, length (abortTargets due from flags) = length flags.
Proof.
  induction flags as [|b flags IH]; intros from; simpl;
    [reflexivity | rewrite IH; reflexivity].
Qed.

Lemma wellFormed_iff w :
  wellFormed w = true
  <-> forall t, In t (timers w) -> (target t < length (aborted w))%nat.
Proof.
  unfold wellFormed. rewrite forallb_forall.
  split; intros H t Ht; [apply Nat.ltb_lt | apply Nat.ltb_lt]; apply H, Ht.
Qed.

Lemma wellFormed_advance t w :
  wellFormed w = true -> wellFormed (advance t w) = true.
Proof.
  rewrite !wellFormed_iff. intros H x Hx. unfold advance in *. simpl in *.
  rewrite length_abortTargets.
  apply in_map_iff in Hx. destruct Hx as (t0 & <- & Ht0).
  rewrite target_fire. apply H, Ht0.
Qed.

Lemma in_clearAt id ts x :
  In x (clearAt id ts) -> exists t0, In t0 ts /\ target x = target t0.
Proof.
  revert id. induction ts as [|t ts IH]; intros id; simpl; [destruct id; intros []|].
  destruct id as [|id]; simpl.
  - intros [<- | Hx].
    + exists t. split; [left; reflexivity|]. destruct (isArmed t); reflexivity.
    + exists x. split; [right; exact Hx | reflexivity].
  - intros [<- | Hx].
    + exists t. split; [left; reflexivity | reflexivity].
    + destruct (IH id Hx) as (t0 & Ht0 & E). exists t0.
      split; [right; exact Ht0 | exact E].
Qed.

Lemma wellFormed_cleared id w :
  wellFormed w = true -> wellFormed (cleared id w) = true.
Proof.
  rewrite !wellFormed_iff. intros H x Hx.
  unfold cleared, clearTimeout in *. simpl in *.
  destruct (in_clearAt id (timers w) x Hx) as (t0 & Ht0 & ->).
  apply H, Ht0.
Qed.

Lemma wellFormed_inFlight ms url options w :
  wellFormed w = true -> wellFormed (inFlight ms url options w) = true.
Proof.
  rewrite !wellFormed_iff. intros H x Hx. unfold inFlight in *. simpl in *.
  rewrite length_app. simpl.
  apply in_app_or in Hx. destruct Hx as [Hx | [<- | []]].
  - specialize (H x Hx). lia.
  - simpl. lia.
Qed.

Lemma await_wellFormed {A} sig (settles : option (N * Completion A)) w :
  wellFormed w = true -> wellFormed (snd (await sig settles w)) = true.
Proof.
  intros W. unfold await.
  destruct settles as [[t r]|];
    destruct (match sig with Some c => abortTime w c | None => None end)
      as [d|];
    try destruct (t <? d); simpl;
    try apply wellFormed_advance; exact W.
Qed.

Lemma await_network {A} sig (settles : option (N * Completion A)) w :
  network (snd (await sig settles w)) = network w.
Proof.
  unfold await.
  destruct settles as [[t r]|];
    destruct (match sig with Some c => abortTime w c | None => None end);
    try destruct (t <? _); reflexivity.
Qed.

Lemma await_controllers {A} sig (settles : option (N * Completion A)) w :
  length (aborted (snd (await sig settles w))) = length (aborted w).
Proof.
  unfold await.
  destruct settles as [[t r]|];
    destruct (match sig with Some c => abortTime w c | None => None end);
    try destruct (t <? _); simpl; try apply length_abortTargets; reflexivity.
Qed.

Lemma await_keeps {A} sig (settles : option (N * Completion A)) :
  keeps (await sig settles).
Proof.
  intros w. split; [apply await_wellFormed|].
  split; [apply await_network | apply await_controllers].
Qed.

Lemma json_keeps res : keeps (json res).
Proof. intros w. apply (await_keeps (signal_of res)). Qed.

Lemma afterJson_keeps data : keeps (afterJson data).
Proof. intros w. rewrite afterJson_parsed. simpl. auto. Qed.

Lemma onError_keeps e : keeps (onError e).
Proof. intros w. simpl. auto. Qed.

Lemma bind_keeps {A B} (m : Eff A) (k : A -> Eff B) :
  keeps m -> (forall a, keeps (k a)) -> keeps (bind m k).
Proof.
  intros Hm Hk w. unfold bind. destruct (Hm w) as (W & Net & C).
  destruct (m w) as [[a| e |] w']; simpl in *; [|auto..].
  destruct (Hk a w') as (W' & Net' & C').
  split; [auto|]. split; congruence.
Qed.

Lemma tryCatch_keeps {A} (m : Eff A) h :
  keeps m -> (forall e, keeps (h e)) -> keeps (tryCatch m h).
Proof.
  intros Hm Hh w. unfold tryCatch. destruct (Hm w) as (W & Net & C).
  destruct (m w) as [[a| e |] w']; simpl in *; [auto | | auto].
  destruct (Hh e w') as (W' & Net' & C').
  split; [auto|]. split; congruence.
Qed.

Lemma response_keeps res :
  keeps (tryCatch (data <- json res ;; afterJson data)%eff onError).
Proof.
  apply tryCatch_keeps; [|apply onError_keeps].
  apply bind_keeps; [apply json_keeps | apply afterJson_keeps].
Qed.

(** [fetchWithTimeout] adds one controller and keeps the rest. *)
Lemma fetchWithTimeout_state url options timeout w :
  (wellFormed w = true ->
   wellFormed (snd (AiService.fetchWithTimeout url options timeout w)) = true)
  /\ network (snd (AiService.fetchWithTimeout url options timeout w))
     = network w
  /\ length (aborted (snd (AiService.fetchWithTimeout url options timeout w)))
     = S (length (aborted w)).
Proof.
  rewrite fetchWithTimeout_shape.
  destruct (await_keeps (Some (length (aborted w)))
              (headersOf (length (aborted w)) w)
              (inFlight (defaultTimeout timeout) url options w))
    as (W & Net & C).
  assert (CI : length (aborted (inFlight (defaultTimeout timeout) url
                                         options w))
               = S (length (aborted w))).
  { unfold inFlight. simpl. rewrite length_app. simpl. lia. }
  destruct (await _ _ _) as [[res| e |] w']; simpl in *;
    (split; [intros Ww; try apply wellFormed_cleared;
             apply W, wellFormed_inFlight, Ww|]);
    (split; [exact Net | congruence]).
Qed.

(** The configured service adds one controller and keeps the rest. *)
Lemma generateAIResponse_state key persona prompt w :
  isConfigured key = true ->
  (wellFormed w = true ->
   wellFormed (snd (AiService.generateAIResponse key persona prompt w)) = true)
  /\ network (snd (AiService.generateAIResponse key persona prompt w))
     = network w
  /\ length (aborted (snd (AiService.generateAIResponse key persona prompt w)))
     = S (length (aborted w)).
Proof.
  intros K. rewrite generateAIResponse_shape, K.
  change (negb true) with false. cbv iota. rewrite tryCatch_bind.
  destruct (fetchWithTimeout_state AiService.HF_ROUTER_URL
              (requestInit key persona prompt) None w) as (W & Net & C).
  destruct (AiService.fetchWithTimeout _ _ _ _) as [[res| e |] w'];
    simpl in *; [|auto..].
  destruct (response_keeps res w') as (W' & Net' & C').
  split; [auto|]. split; congruence.
Qed.

(** X5. A call of [generateAIResponse] leaves the process in a state from
    which the next call starts afresh: whatever the outcome, even a call
    that is still pending, no timer is left aimed at a controller that
    does not exist yet. *)
Theorem X5_calls_keep_the_state_well_formed key persona prompt w :
  wellFormed w = true ->
  wellFormed (snd (AiService.generateAIResponse key persona prompt w)) = true.
Proof.
  intros W. destruct (isConfigured key) eqn:K.
  - apply (generateAIResponse_state key persona prompt w K), W.
  - rewrite (generateAIResponse_unconfigured _ _ _ _ K). exact W.
Qed.

(** The theorem of X5 at a call that times out. *)
Lemma X5_witness :
  wellFormed (startWorld 0 Silent) = true
  /\ wellFormed (snd (AiService.generateAIResponse sampleKey samplePersona
                        samplePrompt (startWorld 0 Silent))) = true.
Proof.
  split; [reflexivity|].
  apply (X5_calls_keep_the_state_well_formed sampleKey samplePersona
           samplePrompt (startWorld 0 Silent)).
  reflexivity.
Defined.

(** X6. Calls do not depend on one another: when the backend answers each
    request in time with the same JSON payload, the second of two calls
    returns what this payload yields, whatever the first prompt was, and
    the two requests have gone out in the order of the calls, each with
    the signal of its own controller. *)
Theorem X6_second_call_is_independent key persona p1 p2 w l lb data :
  isConfigured key = true -> wellFormed w = true -> l < 40000 ->
  network w = Responds l (BodyJSON lb data) ->
  fst (twoCalls key persona p1 p2 w) = Normal (generated data)
  /\ requests (snd (twoCalls key persona p1 p2 w))
     = requests w
       ++ [(AiService.HF_ROUTER_URL,
            withSignal (requestInit key persona p1) (length (aborted w)));
           (AiService.HF_ROUTER_URL,
            withSignal (requestInit key persona p2)
                       (S (length (aborted w))))].
Proof.
  intros K W L Net. unfold twoCalls, bind.
  destruct (generateAIResponse_slow_body key persona p1 w l lb data K W L Net)
    as [R1 _].
  destruct (generateAIResponse_state key persona p1 w K) as (W1 & Net1 & C1).
  pose proof (generateAIResponse_requests key persona p1 w K) as Q1.
  destruct (AiService.generateAIResponse key persona p1 w) as [r1 w1].
  simpl in *. subst r1.
  rewrite Net in Net1.
  destruct (generateAIResponse_slow_body key persona p2 w1 l lb data K
              (W1 W) L Net1) as [R2 _].
  split; [exact R2|].
  rewrite (generateAIResponse_requests key persona p2 w1 K), Q1, C1.
  rewrite <- app_assoc. reflexivity.
Qed.

(** The theorem of X6 at two prompts and a reply that ends in a token. *)
Lemma X6_witness :
  fst (twoCalls sampleKey samplePersona samplePrompt (lit "What is virtue?")
         (startWorld 0
            (Responds 1200
               (BodyJSON 300 (completion (VString (lit "Be calm.<|eot|>")))))))
  = Normal (Some (lit "Be calm.")).
Proof.
  exact (proj1 (X6_second_call_is_independent sampleKey samplePersona
                  samplePrompt (lit "What is virtue?")
                  (startWorld 0
                     (Responds 1200
                        (BodyJSON 300
                           (completion (VString (lit "Be calm.<|eot|>"))))))
                  1200 300 (completion (VString (lit "Be calm.<|eot|>")))
                  eq_refl eq_refl eq_refl eq_refl)).
Defined.

(** ** The key and the prompt *)

(** X7. [fetch] is called exactly when the key is neither missing nor the
    empty string: without such a key the call returns before it reaches
    [fetch], with any other key [fetch] is called. *)
Theorem X7_fetch_called_iff_key_not_empty key persona prompt w :
  requests (snd (AiService.generateAIResponse key persona prompt w))
  = requests w
  <-> key = None \/ key = Some [].
Proof.
  split.
  - intros H. destruct key as [[|c k]|]; auto.
    rewrite generateAIResponse_requests in H by reflexivity.
    apply (f_equal (@length _)) in H. rewrite length_app in H.
    simpl in H. lia.
  - intros [-> | ->]; reflexivity.
Qed.

(** X8. The prompt can be told from the text of the request body: two
    calls that differ in the prompt, or in the persona text, send bodies
    whose texts differ, whatever characters the prompt holds (quotes,
    backslashes, line ends and braces are written with their escapes, so
    that no prompt is taken for the end of the message). *)
Theorem X8_body_text_tells_the_prompt numberToString key1 key2
        persona1 persona2 prompt1 prompt2 w1 w2 init1 init2 :
  isConfigured key1 = true -> isConfigured key2 = true ->
  requests (snd (AiService.generateAIResponse key1 persona1 prompt1 w1))
  = requests w1 ++ [(AiService.HF_ROUTER_URL, init1)] ->
  requests (snd (AiService.generateAIResponse key2 persona2 prompt2 w2))
  = requests w2 ++ [(AiService.HF_ROUTER_URL, init2)] ->
  persona1 <> persona2 \/ prompt1 <> prompt2 ->
  bodyText numberToString init1 <> bodyText numberToString init2.
Proof.
  intros K1 K2 R1 R2 D B.
  rewrite (generateAIResponse_requests key1 persona1 prompt1 w1 K1) in R1.
  rewrite (generateAIResponse_requests key2 persona2 prompt2 w2 K2) in R2.
  apply app_inj_tail in R1. destruct R1 as [_ R1].
  apply app_inj_tail in R2. destruct R2 as [_ R2].
  injection R1 as <-. injection R2 as <-.
  change (bodyText numberToString (requestInit key1 persona1 prompt1)
          = bodyText numberToString (requestInit key2 persona2 prompt2)) in B.
  rewrite !bodyText_requestInit in B.
  apply bodyText_inj in B. destruct B as [P Q].
  destruct D as [D|D]; contradiction.
Qed.

(** The theorem of X8 at a prompt and the same prompt with a quote and a
    closing brace after it. *)
Lemma X8_witness :
  bodyText sampleNumberToString
    (withSignal (requestInit sampleKey samplePersona samplePrompt) 0%nat)
  <> bodyText sampleNumberToString
       (withSignal (requestInit (Some (lit "hf_other")) samplePersona
                                (samplePrompt ++ [34; 125])) 0%nat).
Proof.
  apply (X8_body_text_tells_the_prompt sampleNumberToString
           sampleKey (Some (lit "hf_other"))
           samplePersona samplePersona samplePrompt
           (samplePrompt ++ [34; 125])
           (startWorld 0 Silent) (startWorld 7 (Unreachable 25))).
  - reflexivity.
  - reflexivity.
  - reflexivity.
  - reflexivity.
  - right. discriminate.
Defined.

(** ** What is printed *)

Lemma parsed_throwing_from_first first :
  let f := (message <- optional first (fun v => getProp v (lit "message")) ;;
            optional message (fun v => getProp v (lit "content")))%completion in
  let t := (message <- getProp first (lit "message") ;;
            content <- getProp message (lit "content") ;;
            replaceControlTokens content)%completion in
  let r := (x <- f ;;
            if truthy x then (y <- t ;; Normal (Some (trim y)))
            else Normal None)%completion in
  match r with Throw _ => true | _ => false end
  = match path first [Name (lit "message"); Name (lit "content")] with
    | Some (VString _) => false
    | Some v => truthy v
    | None => false
    end.
Proof.
  destruct first as [ | | ? | ? | ? | ? | fprops ]; simpl; try reflexivity.
  destruct (own fprops (lit "message")) as [message|]; simpl;
    try reflexivity.
  destruct message as [ | | ? | ? | ? | ? | mprops ]; simpl; try reflexivity.
  destruct (own mprops (lit "content")) as [content|]; simpl;
    try reflexivity.
  destruct content as [ | | [|] | x | [|? ?] | ? | ? ]; simpl;
    try reflexivity.
  destruct (negb _); reflexivity.
Qed.

(** The [try] block throws on [null] and on a content that is truthy and
    not a string, and on no other payload. *)
Lemma parsed_throwing data :
  match parsed data with Throw _ => true | _ => false end = throwing data.
Proof.
  unfold parsed, found, cleaned, throwing, expectedContent, expectedFields.
  destruct data as [ | | ? | ? | ? | ? | props ]; simpl; try reflexivity.
  destruct (own props (lit "choices")) as [choices|]; simpl; try reflexivity.
  destruct choices as [ | | ? | ? | [|? ?] | [|first rest] | cprops ]; simpl;
    try reflexivity.
  - apply (parsed_throwing_from_first first).
  - destruct (own cprops (indexKey 0)) as [first|]; simpl; try reflexivity.
    apply (parsed_throwing_from_first first).
Qed.

(** X9. When a JSON payload arrives in time, [AI Error, using fallback] is
    printed, once, exactly when the payload is [null] or its content is
    truthy and not a string. A payload without content, or with a content
    that is the empty string, [null], [false] or zero, makes the call
    return [null] without a line printed, and a success prints nothing. *)
Theorem X9_error_line_only_when_caught key persona prompt w l lb data :
  isConfigured key = true -> wellFormed w = true -> l < 40000 ->
  network w = Responds l (BodyJSON lb data) ->
  console (snd (AiService.generateAIResponse key persona prompt w))
  = console w ++ (if throwing data then [errorLine] else []).
Proof.
  intros K W L Net.
  rewrite (generateAIResponse_in_time key persona prompt w l _ K W Net L).
  rewrite <- parsed_throwing.
  destruct (parsed data) as [v| e |]; simpl.
  - rewrite app_nil_r. reflexivity.
  - reflexivity.
  - rewrite app_nil_r. reflexivity.
Qed.

(** The theorem of X9 at a payload whose content is a number. *)
Lemma X9_witness :
  console (snd (AiService.generateAIResponse sampleKey samplePersona
                  samplePrompt
                  (startWorld 0
                     (Responds 1200 (BodyJSON 300 (completion (VNumber 7)))))))
  = [errorLine].
Proof.
  exact (X9_error_line_only_when_caught sampleKey samplePersona samplePrompt
           (startWorld 0
              (Responds 1200 (BodyJSON 300 (completion (VNumber 7)))))
           1200 300 (completion (VNumber 7))
           eq_refl eq_refl eq_refl eq_refl).
Defined.

Lemma fetchWithTimeout_console url options timeout w :
  console (snd (AiService.fetchWithTimeout url options timeout w))
  = console w.
Proof.
  rewrite fetchWithTimeout_shape.
  pose proof (await_console (Some (length (aborted w)))
                (headersOf (length (aborted w)) w)
                (inFlight (defaultTimeout timeout) url options w)) as R.
  destruct (await _ _ _) as [[res| e |] w']; simpl in *; exact R.
Qed.

(** X10. When the backend cannot be reached, never answers, sends its
    headers at the deadline or later, or sends a body that is not JSON,
    the call returns [null] and prints [AI Error, using fallback] once,
    whatever the state of the process is. *)
Theorem X10_transport_failures_print_one_line key persona prompt w :
  isConfigured key = true -> transportFailure (network w) = true ->
  fst (AiService.generateAIResponse key persona prompt w) = Normal None
  /\ console (snd (AiService.generateAIResponse key persona prompt w))
     = console w ++ [errorLine].
Proof.
  intros K T. rewrite generateAIResponse_shape, K.
  change (negb true) with false. cbv iota. rewrite tryCatch_bind.
  pose proof (fetchWithTimeout_console AiService.HF_ROUTER_URL
                (requestInit key persona prompt) None w) as C.
  pose proof (fetchWithTimeout_exits AiService.HF_ROUTER_URL
                (requestInit key persona prompt) None w) as X.
  destruct (fetchWithTimeout_cases AiService.HF_ROUTER_URL
              (requestInit key persona prompt) None w)
    as [H | [(l & Net & H) | (l & b & Net & H)]].
  - destruct (AiService.fetchWithTimeout _ _ _ _) as [[res| e |] w'];
      simpl in *; try discriminate.
    rewrite C. split; reflexivity.
  - destruct (AiService.fetchWithTimeout _ _ _ _) as [[res| e |] w'];
      simpl in *; try discriminate.
    rewrite C. split; reflexivity.
  - rewrite Net in T. simpl in T.
    assert (I : exists lb, b = BodyInvalid lb).
    { destruct b as [lb data | lb |]; [| exists lb; reflexivity |];
        apply N.leb_le in T;
        rewrite (fetchWithTimeout_late AiService.HF_ROUTER_URL
                   (requestInit key persona prompt) None w) in H
          by (rewrite Net; exact T);
        discriminate. }
    destruct I as [lb ->].
    destruct (AiService.fetchWithTimeout _ _ _ _) as [[res| e |] w'];
      simpl in *; try discriminate.
    injection H as ->. unfold tryCatch, bind.
    pose proof (await_console (Some (length (aborted w)))
                  (Some (N.max (clock w') (clock w + l + lb),
                         @Throw Value SyntaxError)) w') as CJ.
    destruct (json_cases
                (mkResponse (clock w + l) (BodyInvalid lb)
                            (Some (length (aborted w)))) w')
      as [J | [(? & ? & P & _) | [(? & _ & J) | [P _]]]];
      try discriminate P;
      change (json _ w')
        with (await (Some (length (aborted w)))
                (Some (N.max (clock w') (clock w + l + lb),
                       @Throw Value SyntaxError)) w') in *;
      destruct (await _ _ w') as [[d| e |] w'']; simpl in *;
      try discriminate; rewrite CJ, C; split; reflexivity.
Qed.

(** The theorem of X10 at a body that is not JSON. *)
Lemma X10_witness :
  fst (AiService.generateAIResponse sampleKey samplePersona samplePrompt
         (startWorld 0 (Responds 1200 (BodyInvalid 300))))
  = Normal None
  /\ console (snd (AiService.generateAIResponse sampleKey samplePersona
                     samplePrompt
                     (startWorld 0 (Responds 1200 (BodyInvalid 300)))))
     = [errorLine].
Proof.
  exact (X10_transport_failures_print_one_line sampleKey samplePersona
           samplePrompt (startWorld 0 (Responds 1200 (BodyInvalid 300)))
           eq_refl eq_refl).
Defined.

(** ** How a call ends *)

(** X11. A call ends in one of two ways only: it returns a string or
    [null], or it stays pending, and that only while it waits for a body
    that never ends. It never throws, for no key, prompt, backend and
    state. *)
Theorem X11_returns_or_waits_for_the_body key persona prompt w :
  (exists v : option jsstring,
     fst (AiService.generateAIResponse key persona prompt w) = Normal v)
  \/ (fst (AiService.generateAIResponse key persona prompt w) = Pending
      /\ isConfigured key = true
      /\ exists l, network w = Responds l BodyStalled).
Proof.
  destruct (isConfigured key) eqn:K.
  - destruct (generateAIResponse_cases key persona prompt w K)
      as [H | [[H Net] | (l & lb & data & _ & H)]].
    + left. exists None. exact H.
    + right. auto.
    + left. exists (generated data). exact H.
  - left. exists None. rewrite (generateAIResponse_unconfigured _ _ _ _ K).
    reflexivity.
Qed.

(** X12. The other text of the service ends in the same two ways only: a
    string or [null] is returned, or the call waits for a body that never
    ends; it never throws. *)
Theorem X12_other_text_returns_or_waits_for_the_body key persona prompt w :
  (exists v : option jsstring,
     fst (Part001.generateAIResponse key persona prompt w) = Normal v)
  \/ (fst (Part001.generateAIResponse key persona prompt w) = Pending
      /\ isConfigured key = true
      /\ exists l, network w = Responds l BodyStalled).
Proof.
  change (Part001.generateAIResponse key persona prompt w)
    with (AiService.generateAIResponse key persona prompt w).
  destruct (isConfigured key) eqn:K.
  - destruct (generateAIResponse_cases key persona prompt w K)
      as [H | [[H Net] | (l & lb & data & _ & H)]].
    + left. exists None. exact H.
    + right. auto.
    + left. exists (generated data). exact H.
  - left. exists None. rewrite (generateAIResponse_unconfigured _ _ _ _ K).
    reflexivity.
Qed.

(** ** The text that comes back *)

Lemma closeToken_noClose s : noClose s = true -> closeToken s = None.
Proof.
  induction s as [|c s IH]; [reflexivity|].
  destruct s as [|d s']; [reflexivity|].
  intros H.
  change (noClose (c :: d :: s'))
    with (negb ((c =? PIPE) && (d =? GREATER)) && noClose (d :: s')) in H.
  apply andb_true_iff in H. destruct H as [H1 H2].
  apply negb_true_iff in H1.
  change (closeToken (c :: d :: s'))
    with (if (c =? PIPE) && (d =? GREATER) then Some s'
          else if isLineTerminator c then None else closeToken (d :: s')).
  rewrite H1. destruct (isLineTerminator c); [reflexivity | apply IH, H2].
Qed.

Lemma noClose_tail c s : noClose (c :: s) = true -> noClose s = true.
Proof.
  destruct s as [|d s']; [reflexivity|].
  intros H.
  change (noClose (c :: d :: s'))
    with (negb ((c =? PIPE) && (d =? GREATER)) && noClose (d :: s')) in H.
  apply andb_true_iff in H. apply H.
Qed.

Lemma stripControlTokens_noClose s :
  noClose s = true -> stripControlTokens s = s.
Proof.
  induction s as [|c s IH]; [reflexivity|].
  intros H. rewrite stripControlTokens_cons.
  replace (matchToken (c :: s)) with (@None jsstring).
  - rewrite (IH (noClose_tail c s H)). reflexivity.
  - symmetry. destruct s as [|d s']; [reflexivity|]. simpl.
    destruct ((c =? LESS) && (d =? PIPE)); [|reflexivity].
    apply closeToken_noClose, (noClose_tail d s'), (noClose_tail c _), H.
Qed.

Lemma stripControlTokens_noOpen s :
  noOpen s = true -> stripControlTokens s = s.
Proof.
  induction s as [|c s IH]; [reflexivity|].
  intros H. rewrite stripControlTokens_cons.
  destruct s as [|d s'].
  - reflexivity.
  - change (noOpen (c :: d :: s'))
      with (negb ((c =? LESS) && (d =? PIPE)) && noOpen (d :: s')) in H.
    apply andb_true_iff in H. destruct H as [H1 H2].
    apply negb_true_iff in H1. simpl matchToken. rewrite H1.
    rewrite (IH H2). reflexivity.
Qed.

(** X13. A content in which the opening delimiter, or the closing
    delimiter, does not occur comes back trimmed and otherwise untouched:
    a reply without control tokens loses nothing but the whitespace at
    its ends, and a token that is not closed stays. *)
Theorem X13_text_without_tokens_is_only_trimmed key persona prompt w l lb data
        content :
  isConfigured key = true -> wellFormed w = true -> l < 40000 ->
  network w = Responds l (BodyJSON lb data) ->
  expectedContent data = Some (VString content) -> content <> [] ->
  noOpen content = true \/ noClose content = true ->
  fst (AiService.generateAIResponse key persona prompt w)
  = Normal (Some (trim content)).
Proof.
  intros K W L Net E NE O.
  rewrite (proj1 (generateAIResponse_slow_body key persona prompt w l lb data
                    K W L Net)).
  unfold generated. rewrite E.
  destruct content as [|c r]; [contradiction|].
  destruct O as [O | O];
    [rewrite (stripControlTokens_noOpen _ O)
    | rewrite (stripControlTokens_noClose _ O)]; reflexivity.
Qed.

(** The theorem of X13 at a reply with a token that is not closed. *)
Lemma X13_witness :
  fst (AiService.generateAIResponse sampleKey samplePersona samplePrompt
         (startWorld 0
            (Responds 1200
               (BodyJSON 300 (completion (VString (lit " Be calm.<|eot ")))))))
  = Normal (Some (lit "Be calm.<|eot")).
Proof.
  apply (X13_text_without_tokens_is_only_trimmed sampleKey samplePersona
           samplePrompt
           (startWorld 0
              (Responds 1200
                 (BodyJSON 300 (completion (VString (lit " Be calm.<|eot "))))))
           1200 300 (completion (VString (lit " Be calm.<|eot ")))
           (lit " Be calm.<|eot "));
    try reflexivity; [discriminate | right; reflexivity].
Defined.

Lemma Subseq_refl s : Subseq s s.
Proof. induction s; [apply subseq_nil | apply subseq_keep; assumption]. Qed.

Lemma Subseq_skip pre a b : Subseq a b -> Subseq a (pre ++ b).
Proof.
  intros H. induction pre; simpl; [exact H | apply subseq_drop; assumption].
Qed.

Lemma Subseq_prefix a post : Subseq a (a ++ post).
Proof.
  induction a as [|c a IH]; simpl.
  - induction post; [apply subseq_nil | apply subseq_drop; assumption].
  - apply subseq_keep. exact IH.
Qed.

Lemma Subseq_trans a b c : Subseq a b -> Subseq b c -> Subseq a c.
Proof.
  intros H1 H2. revert a H1.
  induction H2 as [|x b c H2 IH|x b c H2 IH]; intros a H1.
  - exact H1.
  - apply subseq_drop. apply IH, H1.
  - inversion H1; subst.
    + apply subseq_drop. apply IH. assumption.
    + apply subseq_keep. apply IH. assumption.
Qed.

Lemma Subseq_length a b : Subseq a b -> (length a <= length b)%nat.
Proof. induction 1; simpl; lia. Qed.

Lemma closeToken_suffix s r : closeToken s = Some r -> exists pre, s = pre ++ r.
Proof.
  revert r. induction s as [|c s IH]; intros r; [discriminate|].
  destruct s as [|d s']; [discriminate|].
  change (closeToken (c :: d :: s'))
    with (if (c =? PIPE) && (d =? GREATER) then Some s'
          else if isLineTerminator c then None else closeToken (d :: s')).
  destruct ((c =? PIPE) && (d =? GREATER)).
  - intros [= <-]. exists [c; d]. reflexivity.
  - destruct (isLineTerminator c); [discriminate|].
    intros H. destruct (IH r H) as [pre E]. exists (c :: pre).
    simpl. rewrite <- E. reflexivity.
Qed.

Lemma matchToken_suffix s r : matchToken s = Some r -> exists pre, s = pre ++ r.
Proof.
  destruct s as [|c [|d s']]; simpl; try discriminate.
  destruct ((c =? LESS) && (d =? PIPE)); [|discriminate].
  intros H. destruct (closeToken_suffix s' r H) as [pre E].
  exists (c :: d :: pre). simpl. rewrite <- E. reflexivity.
Qed.

(** The pass over the tokens only deletes. *)
Lemma stripControlTokens_subseq s : Subseq (stripControlTokens s) s.
Proof.
  remember (length s) as n eqn:Hn. revert s Hn.
  induction n as [n IH] using lt_wf_ind. intros s Hn.
  destruct s as [|c r]; [apply subseq_nil|].
  rewrite stripControlTokens_cons.
  destruct (matchToken (c :: r)) as [rest|] eqn:M.
  - destruct (matchToken_suffix _ _ M) as [pre E].
    rewrite E. apply Subseq_skip.
    apply (IH (length rest)); [|reflexivity].
    subst n. apply matchToken_shorter, M.
  - apply subseq_keep.
    apply (IH (length r)); [subst n; simpl; lia | reflexivity].
Qed.

Lemma trimStart_split s :
  exists pre, s = pre ++ trimStart s /\ blank pre = true.
Proof.
  induction s as [|c s (pre & IH & B)]; simpl.
  - exists []. split; reflexivity.
  - destruct (isTrimmable c) eqn:E.
    + exists (c :: pre). simpl. rewrite <- IH, E. split; [reflexivity | exact B].
    + exists []. split; reflexivity.
Qed.

(** [trim] cuts whitespace off the two ends and nothing else. *)
Lemma trim_split s :
  exists pre post,
    s = pre ++ trim s ++ post /\ blank pre = true /\ blank post = true.
Proof.
  unfold trim, trimEnd.
  destruct (trimStart_split s) as (pre & E1 & B1).
  destruct (trimStart_split (rev (trimStart s))) as (post & E2 & B2).
  exists pre, (rev post). split; [|split].
  - rewrite <- rev_app_distr, <- E2, rev_involutive. exact E1.
  - exact B1.
  - apply forallb_rev, B2.
Qed.

(** X14. Whatever comes back is the content of the payload with code
    units deleted and nothing else done to it: no code unit is added,
    changed or moved, so the result is never longer than the content; and
    after the pass over the tokens only whitespace at the two ends is
    cut. *)
Theorem X14_result_is_content_with_deletions key persona prompt w s :
  fst (AiService.generateAIResponse key persona prompt w) = Normal (Some s) ->
  exists l lb data content,
    network w = Responds l (BodyJSON lb data)
    /\ expectedContent data = Some (VString content)
    /\ Subseq s content
    /\ (length s <= length content)%nat
    /\ exists pre post,
         stripControlTokens content = pre ++ s ++ post
         /\ blank pre = true /\ blank post = true.
Proof.
  intros R. destruct (isConfigured key) eqn:K;
    [|rewrite (generateAIResponse_unconfigured _ _ _ _ K) in R;
      discriminate].
  destruct (generateAIResponse_cases key persona prompt w K)
    as [H | [[H _] | (l & lb & data & Net & H)]];
    rewrite H in R; try discriminate.
  injection R as G.
  destruct (generated_content data s G) as (content & E & _ & ->).
  assert (S : Subseq (trim (stripControlTokens content)) content).
  { apply (Subseq_trans _ (stripControlTokens content));
      [|apply stripControlTokens_subseq].
    destruct (trim_split (stripControlTokens content))
      as (pre & post & Es & _ & _).
    rewrite Es at 2. apply Subseq_skip, Subseq_prefix. }
  exists l, lb, data, content.
  split; [exact Net|]. split; [exact E|]. split; [exact S|].
  split; [apply Subseq_length, S|].
  apply trim_split.
Qed.

(** The theorem of X14 at a reply with a token in its middle. *)
Lemma X14_witness :
  exists l lb data content,
    network (startWorld 0
               (Responds 1200
                  (BodyJSON 300
                     (completion (VString (lit " Be <|pad|>calm. "))))))
    = Responds l (BodyJSON lb data)
    /\ expectedContent data = Some (VString content)
    /\ Subseq (lit "Be calm.") content
    /\ (length (lit "Be calm.") <= length content)%nat
    /\ exists pre post,
         stripControlTokens content = pre ++ lit "Be calm." ++ post
         /\ blank pre = true /\ blank post = true.
Proof.
  apply (X14_result_is_content_with_deletions sampleKey samplePersona
           samplePrompt
           (startWorld 0
              (Responds 1200
                 (BodyJSON 300
                    (completion (VString (lit " Be <|pad|>calm. "))))))
           (lit "Be calm.")).
  vm_compute. reflexivity.
Defined.
